(** * A dynamic to-do list: the three script variants and their storage discipline

    The repository holds three variants of one browser script:
    [script.js], [unnamed/part_000] and [unnamed/part_001].  Each wires an
    input field, an "Add Task" button and a list element to the key
    ["tasks"] of [localStorage], where the tasks are kept as a JSON array of
    strings.

    The development embeds the three scripts as state transformers over a
    small model of the page, gives the host functions they call
    ([String.prototype.trim], [JSON.parse], [JSON.stringify], the storage
    and DOM calls) as executable definitions, and states the properties of
    the specification on them.

    What the model leaves out: a stored array that holds a number, a
    boolean, null, an array or an object (the scripts would coerce it; the
    model stops there, see [completion]); a storage that refuses a write;
    the timers of the message box, which only fade it in and out. *)

From Stdlib Require Import List NArith Bool Lia String Ascii Arith.
Import ListNotations.

Local Open Scope N_scope.

#[local] Set Warnings "-register-all".

(** ** JavaScript strings

    A JavaScript string is a sequence of UTF-16 code units.  A code unit is
    modelled as a natural number; the statements below quantify over every
    sequence, so they cover every real string. *)

Definition code_unit := N.
Definition jsstring := list code_unit.

(** String literals of the scripts, written in ASCII. *)
Definition lit (s : string) : jsstring :=
  map N_of_ascii (list_ascii_of_string s).

(** Strict equality [===] on two strings. *)
Fixpoint str_eqb (a b : jsstring) : bool :=
  match a, b with
  | [], [] => true
  | x :: a', y :: b' => (x =? y) && str_eqb a' b'
  | _, _ => false
  end.

(** [WhiteSpace] and [LineTerminator] code units, as [trim] strips them. *)
Definition is_space (c : code_unit) : bool :=
  (c =? 9) || (c =? 10) || (c =? 11) || (c =? 12) || (c =? 13) || (c =? 32)
  || (c =? 160) || (c =? 5760) || ((8192 <=? c) && (c <=? 8202))
  || (c =? 8232) || (c =? 8233) || (c =? 8239) || (c =? 8287)
  || (c =? 12288) || (c =? 65279).

Fixpoint trimStart (s : jsstring) : jsstring :=
  match s with
  | [] => []
  | c :: r => if is_space c then trimStart r else s
  end.

Definition trimEnd (s : jsstring) : jsstring := rev (trimStart (rev s)).

(** [String.prototype.trim]. *)
Definition trim (s : jsstring) : jsstring := trimEnd (trimStart s).

(** A string made of white space only (the empty string included). *)
Definition whitespace_only (s : jsstring) : bool := forallb is_space s.

(** ** JSON

    [JSON.parse] and [JSON.stringify] are functions of the host.  The parser
    follows the JSON grammar (ECMA-404); a [None] result stands for the
    [SyntaxError] that [JSON.parse] throws.  A number keeps its lexeme: the
    scripts never compute with one. *)

Module JSON.

Inductive json : Type :=
| JNull
| JBool (b : bool)
| JNumber (lexeme : jsstring)
| JString (s : jsstring)
| JArray (elements : list json)
| JObject (members : list (jsstring * json)).

Definition is_ws (c : code_unit) : bool :=
  (c =? 32) || (c =? 9) || (c =? 10) || (c =? 13).

Fixpoint skip_ws (s : jsstring) : jsstring :=
  match s with
  | [] => []
  | c :: r => if is_ws c then skip_ws r else s
  end.

Definition is_digit (c : code_unit) : bool := (48 <=? c) && (c <=? 57).

Definition hex_val (c : code_unit) : option N :=
  if is_digit c then Some (c - 48)
  else if (97 <=? c) && (c <=? 102) then Some (c - 87)
  else if (65 <=? c) && (c <=? 70) then Some (c - 55)
  else None.

Definition parse_hex4 (a b c d : code_unit) : option code_unit :=
  match hex_val a, hex_val b, hex_val c, hex_val d with
  | Some x3, Some x2, Some x1, Some x0 =>
      Some (4096 * x3 + 256 * x2 + 16 * x1 + x0)
  | _, _, _, _ => None
  end.

(** The character a two-character escape stands for. *)
Definition unescape (e : code_unit) : option code_unit :=
  if e =? 34 then Some 34          (* quotation mark *)
  else if e =? 92 then Some 92     (* reverse solidus *)
  else if e =? 47 then Some 47     (* solidus *)
  else if e =? 98 then Some 8      (* b: backspace *)
  else if e =? 102 then Some 12    (* f: form feed *)
  else if e =? 110 then Some 10    (* n: line feed *)
  else if e =? 114 then Some 13    (* r: carriage return *)
  else if e =? 116 then Some 9     (* t: tab *)
  else None.

Definition cons_chars (c : code_unit) (r : option (jsstring * jsstring))
  : option (jsstring * jsstring) :=
  match r with
  | Some (s, rest) => Some (c :: s, rest)
  | None => None
  end.

(** The characters of a string literal, read after its opening quote, up
    to and including the closing quote. *)
Fixpoint parse_chars (s : jsstring) : option (jsstring * jsstring) :=
  match s with
  | [] => None
  | c :: r =>
      if c =? 34 then Some ([], r)
      else if c =? 92 then
        match r with
        | [] => None
        | e :: r1 =>
            if e =? 117 then
              match r1 with
              | h3 :: h2 :: h1 :: h0 :: r2 =>
                  match parse_hex4 h3 h2 h1 h0 with
                  | Some u => cons_chars u (parse_chars r2)
                  | None => None
                  end
              | _ => None
              end
            else
              match unescape e with
              | Some u => cons_chars u (parse_chars r1)
              | None => None
              end
        end
      else if c <? 32 then None
      else cons_chars c (parse_chars r)
  end.

Fixpoint take_digits (s : jsstring) : jsstring * jsstring :=
  match s with
  | [] => ([], [])
  | c :: r =>
      if is_digit c then let (d, r') := take_digits r in (c :: d, r')
      else ([], s)
  end.

Definition parse_int (s : jsstring) : option (jsstring * jsstring) :=
  match s with
  | [] => None
  | c :: r =>
      if c =? 48 then Some ([c], r)
      else if is_digit c then let (d, r') := take_digits r in Some (c :: d, r')
      else None
  end.

Definition parse_frac (s : jsstring) : option (jsstring * jsstring) :=
  match s with
  | [] => Some ([], [])
  | c :: r =>
      if c =? 46 then
        match take_digits r with
        | ([], _) => None
        | (d, r') => Some (c :: d, r')
        end
      else Some ([], s)
  end.

Definition parse_sign (s : jsstring) : jsstring * jsstring :=
  match s with
  | [] => ([], [])
  | c :: r => if (c =? 43) || (c =? 45) then ([c], r) else ([], s)
  end.

Definition parse_exp (s : jsstring) : option (jsstring * jsstring) :=
  match s with
  | [] => Some ([], [])
  | c :: r =>
      if (c =? 101) || (c =? 69) then
        let (sg, r1) := parse_sign r in
        match take_digits r1 with
        | ([], _) => None
        | (d, r') => Some (c :: sg ++ d, r')
        end
      else Some ([], s)
  end.

Definition parse_minus (s : jsstring) : jsstring * jsstring :=
  match s with
  | [] => ([], [])
  | c :: r => if c =? 45 then ([c], r) else ([], s)
  end.

Definition parse_number (s : jsstring) : option (jsstring * jsstring) :=
  let (m, r0) := parse_minus s in
  match parse_int r0 with
  | None => None
  | Some (i, r1) =>
      match parse_frac r1 with
      | None => None
      | Some (f, r2) =>
          match parse_exp r2 with
          | None => None
          | Some (e, r3) => Some (m ++ i ++ f ++ e, r3)
          end
      end
  end.

(** [strip_prefix p s] is what follows [p] in [s]. *)
Fixpoint strip_prefix (p s : jsstring) : option jsstring :=
  match p, s with
  | [], _ => Some s
  | x :: p', y :: s' => if x =? y then strip_prefix p' s' else None
  | _ :: _, [] => None
  end.

Definition parse_literal (s : jsstring) : option (json * jsstring) :=
  match strip_prefix (lit "true") s with
  | Some r => Some (JBool true, r)
  | None =>
      match strip_prefix (lit "false") s with
      | Some r => Some (JBool false, r)
      | None =>
          match strip_prefix (lit "null") s with
          | Some r => Some (JNull, r)
          | None => None
          end
      end
  end.

(** One value, with the text that follows it.  The recursion is bounded by
    [fuel]; [JSON_parse] supplies more than any text can use. *)
Fixpoint parse_value (fuel : nat) (s : jsstring) {struct fuel}
  : option (json * jsstring) :=
  match fuel with
  | O => None
  | S fuel' =>
      match skip_ws s with
      | [] => None
      | c :: r =>
          if c =? 34 then
            match parse_chars r with
            | Some (str, r') => Some (JString str, r')
            | None => None
            end
          else if c =? 91 then
            match skip_ws r with
            | [] => None
            | c' :: r' =>
                if c' =? 93 then Some (JArray [], r')
                else
                  match parse_elements fuel' r with
                  | Some (vs, r'') => Some (JArray vs, r'')
                  | None => None
                  end
            end
          else if c =? 123 then
            match skip_ws r with
            | [] => None
            | c' :: r' =>
                if c' =? 125 then Some (JObject [], r')
                else
                  match parse_members fuel' r with
                  | Some (ms, r'') => Some (JObject ms, r'')
                  | None => None
                  end
            end
          else if (c =? 45) || is_digit c then
            match parse_number (c :: r) with
            | Some (lexeme, r') => Some (JNumber lexeme, r')
            | None => None
            end
          else parse_literal (c :: r)
      end
  end

with parse_elements (fuel : nat) (s : jsstring) {struct fuel}
  : option (list json * jsstring) :=
  match fuel with
  | O => None
  | S fuel' =>
      match parse_value fuel' s with
      | None => None
      | Some (v, r) =>
          match skip_ws r with
          | [] => None
          | c :: r' =>
              if c =? 44 then
                match parse_elements fuel' r' with
                | Some (vs, r'') => Some (v :: vs, r'')
                | None => None
                end
              else if c =? 93 then Some ([v], r')
              else None
          end
      end
  end

with parse_members (fuel : nat) (s : jsstring) {struct fuel}
  : option (list (jsstring * json) * jsstring) :=
  match fuel with
  | O => None
  | S fuel' =>
      match skip_ws s with
      | [] => None
      | q :: r =>
          if q =? 34 then
            match parse_chars r with
            | None => None
            | Some (k, r1) =>
                match skip_ws r1 with
                | [] => None
                | c1 :: r2 =>
                    if c1 =? 58 then
                      match parse_value fuel' r2 with
                      | None => None
                      | Some (v, r3) =>
                          match skip_ws r3 with
                          | [] => None
                          | c3 :: r4 =>
                              if c3 =? 44 then
                                match parse_members fuel' r4 with
                                | Some (ms, r5) => Some ((k, v) :: ms, r5)
                                | None => None
                                end
                              else if c3 =? 125 then Some ([(k, v)], r4)
                              else None
                          end
                      end
                    else None
                end
            end
          else None
      end
  end.

(** [JSON.parse(text)]: the value, or [None] for a [SyntaxError]. *)
Definition JSON_parse (text : jsstring) : option json :=
  match parse_value (2 * List.length text + 2) text with
  | Some (v, r) =>
      match skip_ws r with
      | [] => Some v
      | _ :: _ => None
      end
  | None => None
  end.

(** *** Serialisation of an array of strings *)

Definition hex_digit (n : N) : code_unit :=
  if n <? 10 then 48 + n else 87 + n.

(** [\uXXXX], in lower-case hexadecimal digits. *)
Definition unicode_escape (c : code_unit) : jsstring :=
  [92; 117; hex_digit (c / 4096 mod 16); hex_digit (c / 256 mod 16);
   hex_digit (c / 16 mod 16); hex_digit (c mod 16)].

Definition is_high_surrogate (c : code_unit) : bool :=
  (55296 <=? c) && (c <=? 56319).
Definition is_low_surrogate (c : code_unit) : bool :=
  (56320 <=? c) && (c <=? 57343).

(** One code unit that is no half of a surrogate pair. *)
Definition quote_unit (c : code_unit) : jsstring :=
  if c =? 8 then [92; 98]
  else if c =? 9 then [92; 116]
  else if c =? 10 then [92; 110]
  else if c =? 12 then [92; 102]
  else if c =? 13 then [92; 114]
  else if c =? 34 then [92; 34]
  else if c =? 92 then [92; 92]
  else if (c <? 32) || is_high_surrogate c || is_low_surrogate c
       then unicode_escape c
  else [c].

(** The body of [QuoteJSONString]: a surrogate pair is copied, a lone
    surrogate is escaped. *)
Fixpoint quote_chars (s : jsstring) : jsstring :=
  match s with
  | [] => []
  | c :: r =>
      if is_high_surrogate c then
        match r with
        | d :: r' =>
            if is_low_surrogate d then c :: d :: quote_chars r'
            else unicode_escape c ++ quote_chars r
        | [] => unicode_escape c
        end
      else quote_unit c ++ quote_chars r
  end.

Definition quote (s : jsstring) : jsstring := 34 :: quote_chars s ++ [34].

Fixpoint join_comma (l : list jsstring) : jsstring :=
  match l with
  | [] => []
  | [x] => x
  | x :: r => x ++ 44 :: join_comma r
  end.

(** [JSON.stringify(tasks)] for an array of strings. *)
Definition JSON_stringify (tasks : list jsstring) : jsstring :=
  91 :: join_comma (map quote tasks) ++ [93].

End JSON.

Import JSON.

(** ** The page

    The state the scripts act on: the input field, the children of the list
    element, the value under the key ["tasks"] of [localStorage], and what
    the user has been shown.  A list entry is represented by its task
    text, which is both the text of the [li] and the text its Remove button
    has captured; the entry itself is identified by its position. *)

Inductive error : Type := SyntaxError | TypeError.

(** A message box that [showMessage] of [unnamed/part_000] appends to the
    body. *)
Record message_box : Type := mkBox {
  box_text : jsstring;
  box_error : bool
}.

Record page : Type := mkPage {
  input : jsstring;            (* taskInput.value *)
  taskList : list jsstring;    (* the li children of the list element *)
  storage : option jsstring;   (* localStorage.getItem('tasks'); None is null *)
  listening : bool;            (* the click and keypress listeners are attached *)
  alerts : list jsstring;      (* the alert dialogs shown *)
  boxes : list message_box;    (* the message boxes appended to the body *)
  uncaught : list error        (* the errors no handler caught *)
}.

(** How a call ends: it returns, it throws, or it leaves the typed fragment
    (the stored array holds a value that is not a string, which the model
    does not follow). *)
Inductive completion : Type :=
| Returned (p : page)
| Uncaught (e : error) (p : page)
| Untyped.

Definition action := page -> completion.

Definition ret : action := Returned.

Definition seq (a b : action) : action :=
  fun p =>
    match a p with
    | Returned p' => b p'
    | Uncaught e p' => Uncaught e p'
    | Untyped => Untyped
    end.

Notation "a ;; b" := (seq a b) (at level 61, right associativity).

(** *** The host operations the scripts call *)

(** [taskInput.value = v] *)
Definition set_value (v : jsstring) : action :=
  fun p => Returned (mkPage v (taskList p) (storage p) (listening p)
                            (alerts p) (boxes p) (uncaught p)).

(** [taskList.appendChild(li)], for a fresh [li] showing [taskText]. *)
Definition appendChild (taskText : jsstring) : action :=
  fun p => Returned (mkPage (input p) (taskList p ++ [taskText]) (storage p)
                            (listening p) (alerts p) (boxes p) (uncaught p)).

(** The children without the one at position [i]. *)
Definition detach (i : nat) (l : list jsstring) : list jsstring :=
  firstn i l ++ skipn (S i) l.

(** [taskList.removeChild(li)], for the [li] at position [i]. *)
Definition removeChild (i : nat) : action :=
  fun p => Returned (mkPage (input p) (detach i (taskList p)) (storage p)
                            (listening p) (alerts p) (boxes p) (uncaught p)).

(** [localStorage.setItem('tasks', v)] *)
Definition setItem (v : jsstring) : action :=
  fun p => Returned (mkPage (input p) (taskList p) (Some v) (listening p)
                            (alerts p) (boxes p) (uncaught p)).

(** [alert(message)] *)
Definition alert (message : jsstring) : action :=
  fun p => Returned (mkPage (input p) (taskList p) (storage p) (listening p)
                            (alerts p ++ [message]) (boxes p) (uncaught p)).

(** [document.body.appendChild(messageBox)] *)
Definition appendBox (b : message_box) : action :=
  fun p => Returned (mkPage (input p) (taskList p) (storage p) (listening p)
                            (alerts p) (boxes p ++ [b]) (uncaught p)).

(** The two [addEventListener] calls. *)
Definition addEventListeners : action :=
  fun p => Returned (mkPage (input p) (taskList p) (storage p) true
                            (alerts p) (boxes p) (uncaught p)).

(** [x || d] for a string or null [x]: null and the empty string are falsy. *)
Definition or_default (x : option jsstring) (d : jsstring) : jsstring :=
  match x with
  | None => d
  | Some [] => d
  | Some (c :: s) => c :: s
  end.

Fixpoint strings_of (vs : list json) : option (list jsstring) :=
  match vs with
  | [] => Some []
  | JString s :: r =>
      match strings_of r with
      | Some l => Some (s :: l)
      | None => None
      end
  | _ :: _ => None
  end.

(** What [JSON.parse(localStorage.getItem('tasks') || '[]')] hands to the
    array method called on it. *)
Inductive read : Type :=
| ReadTasks (tasks : list jsstring)   (* an array of strings *)
| ReadThrows (e : error)              (* the parse, or the method call, throws *)
| ReadUntyped.                        (* an array holding another value *)

(** The parse throws a [SyntaxError] on a malformed text.  On a value that
    is no array, the method called next ([push], [filter], [forEach]) does
    not exist and the call throws a [TypeError]; nothing happens in
    between. *)
Definition read_tasks (p : page) : read :=
  match JSON_parse (or_default (storage p) (lit "[]")) with
  | None => ReadThrows SyntaxError
  | Some (JArray vs) =>
      match strings_of vs with
      | Some tasks => ReadTasks tasks
      | None => ReadUntyped
      end
  | Some _ => ReadThrows TypeError
  end.

(** [tasks.forEach(f)] *)
Fixpoint forEach (f : jsstring -> action) (tasks : list jsstring) : action :=
  match tasks with
  | [] => ret
  | t :: r => f t ;; forEach f r
  end.

(** [tasks.filter(task => task !== taskText)] *)
Definition without (taskText : jsstring) (tasks : list jsstring)
  : list jsstring :=
  filter (fun task => negb (str_eqb task taskText)) tasks.

(** ** script.js *)

Module Script.

Definition saveTaskToLocalStorage (taskText : jsstring) : action :=
  fun p =>
    match read_tasks p with
    | ReadTasks tasks => setItem (JSON_stringify (tasks ++ [taskText])) p
    | ReadThrows e => Uncaught e p
    | ReadUntyped => Untyped
    end.

Definition removeTaskFromLocalStorage (taskText : jsstring) : action :=
  fun p =>
    match read_tasks p with
    | ReadTasks tasks => setItem (JSON_stringify (without taskText tasks)) p
    | ReadThrows e => Uncaught e p
    | ReadUntyped => Untyped
    end.

(** [removeBtn.onclick] of the entry at position [i] showing [taskText]. *)
Definition removeBtn_onclick (i : nat) (taskText : jsstring) : action :=
  removeChild i ;; removeTaskFromLocalStorage taskText.

Definition addTask (taskText : jsstring) (save : bool) : action :=
  appendChild taskText ;;
  if save then saveTaskToLocalStorage taskText else ret.

Definition loadTasks : action :=
  fun p =>
    match read_tasks p with
    | ReadTasks tasks => forEach (fun taskText => addTask taskText false) tasks p
    | ReadThrows e => Uncaught e p
    | ReadUntyped => Untyped
    end.

(** The click listener of the Add button. *)
Definition addButton_click : action :=
  fun p =>
    let taskText := trim (input p) in
    if negb (str_eqb taskText [])
    then (addTask taskText true ;; set_value []) p
    else alert (lit "Please enter a task.") p.

(** The keypress listener of the input field. *)
Definition taskInput_keypress (key : jsstring) : action :=
  if str_eqb key (lit "Enter") then
    fun p =>
      let taskText := trim (input p) in
      if negb (str_eqb taskText [])
      then (addTask taskText true ;; set_value []) p
      else alert (lit "Please enter a task.") p
  else ret.

(** The [DOMContentLoaded] listener: the tasks are loaded before the
    listeners are attached. *)
Definition DOMContentLoaded : action :=
  loadTasks ;; addEventListeners.

End Script.

(** ** The variant with a message box ([unnamed/part_000]) *)

Module Boxed.

(** The two timers of [showMessage] only fade the box in and out; the box
    is appended at once. *)
Definition showMessage (message type : jsstring) : action :=
  appendBox (mkBox message (str_eqb type (lit "error"))).

Definition updateLocalStorageOnRemoval (taskToRemove : jsstring) : action :=
  fun p =>
    match read_tasks p with
    | ReadTasks storedTasks =>
        setItem (JSON_stringify (without taskToRemove storedTasks)) p
    | ReadThrows e => Uncaught e p
    | ReadUntyped => Untyped
    end.

Definition removeButton_onclick (i : nat) (taskText : jsstring) : action :=
  removeChild i ;; updateLocalStorageOnRemoval taskText.

(** [taskTextFromParam] is [None] when the listeners call [addTask()]. *)
Definition addTask (taskTextFromParam : option jsstring) (save : bool)
  : action :=
  fun p =>
    let taskText :=
      match taskTextFromParam with
      | Some (c :: s) => c :: s
      | _ => trim (input p)
      end in
    if str_eqb taskText [] then
      showMessage (lit "Please enter a task.") (lit "error") p
    else
      (appendChild taskText ;;
       set_value [] ;;
       if save then
         fun q =>
           match read_tasks q with
           | ReadTasks storedTasks =>
               setItem (JSON_stringify (storedTasks ++ [taskText])) q
           | ReadThrows e => Uncaught e q
           | ReadUntyped => Untyped
           end
       else ret) p.

Definition loadTasks : action :=
  fun p =>
    match read_tasks p with
    | ReadTasks storedTasks =>
        forEach (fun taskText => addTask (Some taskText) false) storedTasks p
    | ReadThrows e => Uncaught e p
    | ReadUntyped => Untyped
    end.

Definition addButton_click : action := addTask None true.

Definition taskInput_keypress (key : jsstring) : action :=
  if str_eqb key (lit "Enter") then addTask None true else ret.

(** The listeners are attached first; [loadTasks] is the last call. *)
Definition DOMContentLoaded : action :=
  addEventListeners ;; loadTasks.

End Boxed.

(** ** The silent variant ([unnamed/part_001]) *)

Module Silent.

Definition saveTaskToStorage (taskText : jsstring) : action :=
  fun p =>
    match read_tasks p with
    | ReadTasks tasks => setItem (JSON_stringify (tasks ++ [taskText])) p
    | ReadThrows e => Uncaught e p
    | ReadUntyped => Untyped
    end.

Definition removeTaskFromStorage (taskText : jsstring) : action :=
  fun p =>
    match read_tasks p with
    | ReadTasks tasks => setItem (JSON_stringify (without taskText tasks)) p
    | ReadThrows e => Uncaught e p
    | ReadUntyped => Untyped
    end.

Definition removeBtn_onclick (i : nat) (taskText : jsstring) : action :=
  removeChild i ;; removeTaskFromStorage taskText.

Definition addTask (taskText : jsstring) (saveToStorage : bool) : action :=
  appendChild taskText ;;
  if saveToStorage then saveTaskToStorage taskText else ret.

Definition loadTasks : action :=
  fun p =>
    match read_tasks p with
    | ReadTasks tasks => forEach (fun task => addTask task false) tasks p
    | ReadThrows e => Uncaught e p
    | ReadUntyped => Untyped
    end.

(** No branch for an empty text: nothing is shown. *)
Definition addButton_click : action :=
  fun p =>
    let taskText := trim (input p) in
    if negb (str_eqb taskText [])
    then (addTask taskText true ;; set_value []) p
    else Returned p.

Definition taskInput_keypress (key : jsstring) : action :=
  if str_eqb key (lit "Enter") then
    fun p =>
      let taskText := trim (input p) in
      if negb (str_eqb taskText [])
      then (addTask taskText true ;; set_value []) p
      else Returned p
  else ret.

Definition DOMContentLoaded : action :=
  loadTasks ;; addEventListeners.

End Silent.

(** ** Sessions

    What the user does to the page, and how a script answers. *)

Inductive event : Type :=
| Typing (text : jsstring)      (* the input field is edited to hold [text] *)
| ClickAdd                      (* a click on the Add button *)
| Keypress (key : jsstring)     (* a key pressed in the input field *)
| ClickRemove (i : nat).        (* a click on the Remove button of entry [i] *)

Record script : Type := mkScript {
  on_load : action;
  on_click : action;
  on_keypress : jsstring -> action;
  on_remove : nat -> jsstring -> action
}.

Definition script_js : script :=
  mkScript Script.DOMContentLoaded Script.addButton_click
           Script.taskInput_keypress Script.removeBtn_onclick.

Definition boxed_variant : script :=
  mkScript Boxed.DOMContentLoaded Boxed.addButton_click
           Boxed.taskInput_keypress Boxed.removeButton_onclick.

Definition silent_variant : script :=
  mkScript Silent.DOMContentLoaded Silent.addButton_click
           Silent.taskInput_keypress Silent.removeBtn_onclick.

(** The handler an event reaches.  Without listeners a click on Add or a
    key does nothing; a Remove button exists only on a rendered entry. *)
Definition dispatch (sc : script) (e : event) : action :=
  fun p =>
    match e with
    | Typing text => set_value text p
    | ClickAdd => if listening p then on_click sc p else Returned p
    | Keypress key => if listening p then on_keypress sc key p else Returned p
    | ClickRemove i =>
        match nth_error (taskList p) i with
        | Some taskText => on_remove sc i taskText p
        | None => Returned p
        end
    end.

(** An error that no handler catches ends the handler and is reported; the
    page stays as the handler left it. *)
Definition settle (c : completion) : option page :=
  match c with
  | Returned p => Some p
  | Uncaught e p =>
      Some (mkPage (input p) (taskList p) (storage p) (listening p)
                   (alerts p) (boxes p) (uncaught p ++ [e]))
  | Untyped => None
  end.

Fixpoint run (sc : script) (es : list event) (p : page) : option page :=
  match es with
  | [] => Some p
  | e :: r =>
      match settle (dispatch sc e p) with
      | Some p' => run sc r p'
      | None => None
      end
  end.

(** A freshly loaded document: an empty list, no listener yet. *)
Definition fresh (stored : option jsstring) (typed : jsstring) : page :=
  mkPage typed [] stored false [] [] [].

(** Loading the page runs the [DOMContentLoaded] listener. *)
Definition initialize (sc : script) (stored : option jsstring)
  (typed : jsstring) : option page :=
  settle (on_load sc (fresh stored typed)).

(** A whole visit: the page is loaded, then the events happen. *)
Definition session (sc : script) (stored : option jsstring)
  (es : list event) : option page :=
  match initialize sc stored [] with
  | Some p => run sc es p
  | None => None
  end.



(** The user types [text] and clicks Add. *)
Definition submit (text : jsstring) : list event := [Typing text; ClickAdd].

(** The persisted sequence a stored value stands for. *)
Definition persisted (stored : option jsstring) : option (list jsstring) :=
  match JSON_parse (or_default stored (lit "[]")) with
  | Some (JArray vs) => strings_of vs
  | _ => None
  end.

(** *** What the statements speak of *)

(** The visible list and the persisted sequence agree, order included. *)
Definition in_sync (p : page) : Prop :=
  persisted (storage p) = Some (taskList p).

(** Some validation message has been shown between [p] and [p']. *)
Definition message_shown (p p' : page) : Prop :=
  alerts p' <> alerts p \/ boxes p' <> boxes p.

(** The submit handler refuses an empty text with a message: it adds no
    entry, does not touch the store, and tells the user. *)
Definition rejects_empty_submission (sc : script) : Prop :=
  forall p : page,
    whitespace_only (input p) = true ->
    exists p',
      on_click sc p = Returned p' /\
      taskList p' = taskList p /\
      storage p' = storage p /\
      message_shown p p'.



(** The page with its alert dialogs forgotten. *)
Definition mute (p : page) : page :=
  mkPage (input p) (taskList p) (storage p) (listening p) []
         (boxes p) (uncaught p).

(** The message box [showMessage(message, 'error')] appends. *)
Definition error_box (message : jsstring) : message_box := mkBox message true.


(** A task text as the submit handlers produce it: not empty, and with no
    white space at either end. *)
Definition clean (t : jsstring) : Prop := t <> [] /\ trim t = t.

(** [t !== ""] *)
Definition nonempty (t : jsstring) : bool := negb (str_eqb t []).

(** What the event [e] may have done to a page whose store held the
    sequence [S]: nothing to the list and the store; or the trimmed input,
    not empty, added at the end of both; or, on a click on Remove, one
    entry detached and its text filtered out of the store.  No error, and
    the listeners as before. *)
Definition step_outcome (e : event) (p p' : page) (S : list jsstring)
  : Prop :=
  uncaught p' = uncaught p /\
  listening p' = listening p /\
  ((taskList p' = taskList p /\ storage p' = storage p) \/
   (trim (input p) <> [] /\
    taskList p' = taskList p ++ [trim (input p)] /\
    storage p' = Some (JSON_stringify (S ++ [trim (input p)]))) \/
   (exists i t,
       e = ClickRemove i /\
       nth_error (taskList p) i = Some t /\
       taskList p' = detach i (taskList p) /\
       storage p' = Some (JSON_stringify (without t S)))).

(** A script whose every handler, over a store that reads as an array of
    strings, ends in one of these outcomes. *)
Definition well_behaved (sc : script) : Prop :=
  forall (e : event) (p : page) (S : list jsstring),
    persisted (storage p) = Some S ->
    exists p', settle (dispatch sc e p) = Some p' /\ step_outcome e p p' S.

(** The three scripts of the repository. *)
Definition variants : list script :=
  [script_js; boxed_variant; silent_variant].

(** The same session with the Enter key in place of every click on Add. *)
Definition enter_for_click (e : event) : event :=
  match e with
  | ClickAdd => Keypress (lit "Enter")
  | _ => e
  end.

(** *** Proof steps used more than once *)

(** Case analysis on every comparison of code units in the goal. *)
Ltac cmp_cases :=
  repeat match goal with
    | |- context [N.eqb ?a ?b] => destruct (N.eqb_spec a b)
    | |- context [N.leb ?a ?b] => destruct (N.leb_spec a b)
    | |- context [N.ltb ?a ?b] => destruct (N.ltb_spec a b)
    end.

(** Every read of the store in the goal is a read of the store of [p],
    for pages that hold the same stored value. *)
Ltac read_at p :=
  repeat match goal with
    | |- context [read_tasks ?q] =>
        lazymatch q with
        | p => fail
        | _ => change (read_tasks q) with (read_tasks p)
        end
    end.

(** * Properties *)

(** ** Strings *)

Lemma str_eqb_eq (a b : jsstring) : str_eqb a b = true <-> a = b.
Proof.
  revert b; induction a as [|x a IH]; intros [|y b]; simpl; split;
    try congruence; try reflexivity.
  - intros H. apply andb_true_iff in H as [Hx Ha].
    apply N.eqb_eq in Hx. apply IH in Ha. congruence.
  - intros H. injection H as -> ->. rewrite N.eqb_refl. simpl. now apply IH.
Qed.

Lemma str_eqb_refl (a : jsstring) : str_eqb a a = true.
Proof. now apply str_eqb_eq. Qed.

Lemma str_eqb_neq (a b : jsstring) : str_eqb a b = false <-> a <> b.
Proof.
  split.
  - intros H E. apply str_eqb_eq in E. congruence.
  - intros H. destruct (str_eqb a b) eqn:E; [|reflexivity].
    apply str_eqb_eq in E. contradiction.
Qed.

Lemma str_eqb_nil (a : jsstring) : str_eqb a [] = true <-> a = [].
Proof. apply str_eqb_eq. Qed.

Lemma trimStart_nil (s : jsstring) :
  trimStart s = [] <-> whitespace_only s = true.
Proof.
  unfold whitespace_only.
  induction s as [|c s IH]; simpl; [tauto|].
  destruct (is_space c); simpl; [exact IH|].
  split; discriminate.
Qed.

Lemma trimStart_head (s : jsstring) (c : code_unit) (r : jsstring) :
  trimStart s = c :: r -> is_space c = false.
Proof.
  induction s as [|x s IH]; simpl; [discriminate|].
  destruct (is_space x) eqn:E; [exact IH|].
  intros H; injection H as -> _. exact E.
Qed.

Lemma whitespace_only_rev (s : jsstring) :
  whitespace_only (rev s) = whitespace_only s.
Proof.
  unfold whitespace_only.
  induction s as [|c s IH]; simpl; [reflexivity|].
  rewrite forallb_app, IH. simpl. rewrite andb_true_r. apply andb_comm.
Qed.

(** [trim] yields the empty string exactly on white space. *)
Lemma trim_nil (s : jsstring) : trim s = [] <-> whitespace_only s = true.
Proof.
  unfold trim, trimEnd. split.
  - intros H.
    assert (E : trimStart (rev (trimStart s)) = []).
    { destruct (trimStart (rev (trimStart s))) as [|x l]; [reflexivity|].
      simpl in H. destruct (rev l); discriminate. }
    apply trimStart_nil in E. rewrite whitespace_only_rev in E.
    destruct (trimStart s) as [|c r] eqn:Es.
    + now apply trimStart_nil.
    + apply trimStart_head in Es. unfold whitespace_only in E.
      simpl in E. rewrite Es in E. discriminate.
  - intros H. apply trimStart_nil in H. now rewrite H.
Qed.

(** ** JSON: a serialised array of strings parses back to itself *)

Lemma hex_val_hex_digit (n : N) : n < 16 -> hex_val (hex_digit n) = Some n.
Proof.
  intros H. unfold hex_val, hex_digit, is_digit.
  cmp_cases; cbn [andb]; try lia; f_equal; lia.
Qed.

Lemma hex4_sum (c : N) :
  c < 65536 ->
  4096 * (c / 4096 mod 16) + 256 * (c / 256 mod 16)
  + 16 * (c / 16 mod 16) + c mod 16 = c.
Proof.
  intros H.
  pose proof (N.div_mod' c 16) as E0.
  pose proof (N.mod_lt c 16 ltac:(lia)).
  pose proof (N.div_mod' (c / 16) 16) as E1.
  pose proof (N.mod_lt (c / 16) 16 ltac:(lia)).
  pose proof (N.div_mod' (c / 256) 16) as E2.
  pose proof (N.mod_lt (c / 256) 16 ltac:(lia)).
  pose proof (N.div_mod' (c / 4096) 16) as E3.
  pose proof (N.mod_lt (c / 4096) 16 ltac:(lia)).
  replace (c / 256) with (c / 16 / 16) in *
    by (rewrite N.Div0.div_div; reflexivity).
  replace (c / 4096) with (c / 16 / 16 / 16) in *
    by (rewrite !N.Div0.div_div; reflexivity).
  assert (c / 16 / 16 / 16 / 16 = 0).
  { rewrite !N.Div0.div_div. apply N.div_small. simpl. lia. }
  lia.
Qed.

Lemma parse_chars_u (a b c d : code_unit) (rest : jsstring) :
  parse_chars (92 :: 117 :: a :: b :: c :: d :: rest) =
  match parse_hex4 a b c d with
  | Some u => cons_chars u (parse_chars rest)
  | None => None
  end.
Proof. reflexivity. Qed.

Lemma parse_chars_unicode_escape (c : code_unit) (rest : jsstring) :
  c < 65536 ->
  parse_chars (unicode_escape c ++ rest) = cons_chars c (parse_chars rest).
Proof.
  intros H. unfold unicode_escape.
  change (parse_chars (92 :: 117 :: hex_digit (c / 4096 mod 16)
            :: hex_digit (c / 256 mod 16) :: hex_digit (c / 16 mod 16)
            :: hex_digit (c mod 16) :: rest)
          = cons_chars c (parse_chars rest)).
  rewrite parse_chars_u. unfold parse_hex4.
  rewrite !hex_val_hex_digit by (apply N.mod_lt; lia).
  now rewrite hex4_sum.
Qed.

Lemma parse_chars_plain (c : code_unit) (rest : jsstring) :
  c <> 34 -> c <> 92 -> 32 <= c ->
  parse_chars (c :: rest) = cons_chars c (parse_chars rest).
Proof.
  intros H1 H2 H3. cbn [parse_chars].
  destruct (N.eqb_spec c 34); [contradiction|].
  destruct (N.eqb_spec c 92); [contradiction|].
  destruct (N.ltb_spec c 32); [lia|reflexivity].
Qed.

Lemma parse_chars_quote_unit (c : code_unit) (rest : jsstring) :
  parse_chars (quote_unit c ++ rest) = cons_chars c (parse_chars rest).
Proof.
  unfold quote_unit, is_high_surrogate, is_low_surrogate.
  repeat match goal with
    | |- context [N.eqb c ?b] => destruct (N.eqb_spec c b); [subst; reflexivity|]
    end.
  destruct (N.ltb_spec c 32); simpl orb.
  - apply parse_chars_unicode_escape. lia.
  - destruct (N.leb_spec 55296 c); destruct (N.leb_spec c 56319); simpl;
      try (apply parse_chars_unicode_escape; lia);
      destruct (N.leb_spec 56320 c); destruct (N.leb_spec c 57343); simpl;
      try (apply parse_chars_unicode_escape; lia);
      apply parse_chars_plain; assumption.
Qed.

Lemma quote_chars_cons (c : code_unit) (r : jsstring) :
  quote_chars (c :: r) =
  if is_high_surrogate c then
    match r with
    | d :: r' =>
        if is_low_surrogate d then c :: d :: quote_chars r'
        else unicode_escape c ++ quote_chars r
    | [] => unicode_escape c
    end
  else quote_unit c ++ quote_chars r.
Proof. destruct r; reflexivity. Qed.

Lemma parse_chars_quote_chars (s rest : jsstring) :
  parse_chars (quote_chars s ++ 34 :: rest) = Some (s, rest).
Proof.
  remember (List.length s) as n eqn:Hn.
  assert (Hle : (List.length s <= n)%nat) by lia. clear Hn.
  revert s Hle rest. induction n as [|n IH]; intros s Hle rest.
  - destruct s; [reflexivity|simpl in Hle; lia].
  - destruct s as [|c r]; [reflexivity|].
    simpl in Hle. rewrite quote_chars_cons.
    destruct (is_high_surrogate c) eqn:Hh.
    + unfold is_high_surrogate in Hh. apply andb_true_iff in Hh as [Hh1 Hh2].
      apply N.leb_le in Hh1, Hh2.
      destruct r as [|d r'].
      * rewrite parse_chars_unicode_escape by lia. reflexivity.
      * destruct (is_low_surrogate d) eqn:Hl.
        -- unfold is_low_surrogate in Hl.
           apply andb_true_iff in Hl as [Hl1 Hl2].
           apply N.leb_le in Hl1, Hl2. simpl in Hle.
           change ((c :: d :: quote_chars r') ++ 34 :: rest)
             with (c :: d :: (quote_chars r' ++ 34 :: rest)).
           rewrite parse_chars_plain by lia.
           rewrite parse_chars_plain by lia.
           rewrite IH by lia. reflexivity.
        -- rewrite <- app_assoc.
           rewrite parse_chars_unicode_escape by lia.
           rewrite IH by lia. reflexivity.
    + rewrite <- app_assoc, parse_chars_quote_unit.
      rewrite IH by lia. reflexivity.
Qed.

Lemma parse_value_quote (fuel : nat) (s rest : jsstring) :
  parse_value (S fuel) (quote s ++ rest) = Some (JString s, rest).
Proof.
  unfold quote.
  change ((34 :: quote_chars s ++ [34]) ++ rest)
    with (34 :: ((quote_chars s ++ [34]) ++ rest)).
  rewrite <- app_assoc. simpl app.
  cbn [parse_value skip_ws is_ws N.eqb Pos.eqb orb].
  now rewrite parse_chars_quote_chars.
Qed.

Lemma parse_elements_step (fuel : nat) (s : jsstring) :
  parse_elements (S fuel) s =
  match parse_value fuel s with
  | None => None
  | Some (v, r) =>
      match skip_ws r with
      | [] => None
      | c :: r' =>
          if c =? 44 then
            match parse_elements fuel r' with
            | Some (vs, r'') => Some (v :: vs, r'')
            | None => None
            end
          else if c =? 93 then Some ([v], r')
          else None
      end
  end.
Proof. reflexivity. Qed.

Lemma join_comma_cons (x y : jsstring) (l : list jsstring) :
  join_comma (x :: y :: l) = x ++ 44 :: join_comma (y :: l).
Proof. reflexivity. Qed.

Lemma parse_elements_quoted (l : list jsstring) :
  forall (x rest : jsstring) (fuel : nat),
    (List.length l + 2 <= fuel)%nat ->
    parse_elements fuel (join_comma (map quote (x :: l)) ++ 93 :: rest) =
    Some (JString x :: map JString l, rest).
Proof.
  induction l as [|y l IH]; intros x rest fuel H;
    (destruct fuel as [|[|fuel]]; [simpl in H; lia | simpl in H; lia |]).
  - rewrite parse_elements_step. simpl map. simpl join_comma.
    rewrite parse_value_quote. reflexivity.
  - rewrite parse_elements_step.
    change (map quote (x :: y :: l)) with (quote x :: quote y :: map quote l).
    rewrite join_comma_cons, <- app_assoc, <- app_comm_cons.
    rewrite parse_value_quote.
    cbn [skip_ws is_ws N.eqb Pos.eqb orb].
    change (quote y :: map quote l) with (map quote (y :: l)).
    rewrite IH by (simpl in H; lia). reflexivity.
Qed.

Lemma parse_value_bracket (fuel : nat) (t : jsstring) :
  parse_value (S fuel) (91 :: 34 :: t) =
  match parse_elements fuel (34 :: t) with
  | Some (vs, r) => Some (JArray vs, r)
  | None => None
  end.
Proof. reflexivity. Qed.

Lemma parse_value_stringify (l : list jsstring) (rest : jsstring) (fuel : nat) :
  (List.length l + 2 <= fuel)%nat ->
  parse_value fuel (JSON_stringify l ++ rest) = Some (JArray (map JString l), rest).
Proof.
  intros H. destruct fuel as [|fuel]; [lia|].
  destruct l as [|x l]; [reflexivity|].
  unfold JSON_stringify.
  rewrite <- app_comm_cons, <- app_assoc. simpl app at 2.
  assert (E : exists t, join_comma (map quote (x :: l)) = 34 :: t).
  { destruct l as [|y l];
      [exists (quote_chars x ++ [34])
      |exists ((quote_chars x ++ [34]) ++ 44 :: join_comma (map quote (y :: l)))];
      reflexivity. }
  destruct E as [t E].
  pose proof (parse_elements_quoted l x rest fuel) as P.
  rewrite E in *. simpl app in *.
  rewrite parse_value_bracket.
  unfold jsstring, code_unit in *.
  rewrite P by (simpl in H; lia). reflexivity.
Qed.

Lemma length_join_comma (l : list jsstring) :
  (List.length l <= List.length (join_comma (map quote l)))%nat.
Proof.
  induction l as [|x l IH]; [simpl; lia|].
  destruct l as [|y l].
  - simpl. lia.
  - change (map quote (x :: y :: l)) with (quote x :: map quote (y :: l)).
    change (map quote (y :: l)) with (quote y :: map quote l) at 1.
    rewrite join_comma_cons, length_app.
    change (quote y :: map quote l) with (map quote (y :: l)).
    cbn [List.length] in *. lia.
Qed.

(** [JSON.parse(JSON.stringify(tasks))] is [tasks] again. *)
Lemma JSON_parse_stringify (l : list jsstring) :
  JSON_parse (JSON_stringify l) = Some (JArray (map JString l)).
Proof.
  unfold JSON_parse.
  pose proof (parse_value_stringify l []
                (2 * List.length (JSON_stringify l) + 2)) as P.
  rewrite app_nil_r in P. rewrite P; [reflexivity|].
  pose proof (length_join_comma l). unfold JSON_stringify. simpl.
  rewrite length_app. simpl. lia.
Qed.

Lemma strings_of_map (l : list jsstring) : strings_of (map JString l) = Some l.
Proof. induction l as [|x l IH]; simpl; [reflexivity|now rewrite IH]. Qed.

(** The texts involved, on small inputs. *)

Example stringify_two :
  JSON_stringify [lit "A"; lit "B"] = [91; 34; 65; 34; 44; 34; 66; 34; 93].
Proof. reflexivity. Qed.

Example stringify_escapes :
  JSON_stringify [[34; 92; 10; 1]]
  = [91; 34] ++ lit "\" ++ [34] ++ lit "\\\n\u0001" ++ [34; 93].
Proof. reflexivity. Qed.

Example parse_spaced :
  JSON_parse (lit " [ 1 , true , null ] ")
  = Some (JArray [JNumber (lit "1"); JBool true; JNull]).
Proof. reflexivity. Qed.

Example parse_rejects :
  JSON_parse (lit "oops") = None /\ JSON_parse (lit "[1,]") = None /\
  JSON_parse (lit "[01]") = None /\ JSON_parse [] = None.
Proof. repeat split. Qed.

Example trim_both_ends : trim (lit "  Buy milk ") = lit "Buy milk".
Proof. reflexivity. Qed.

(** ** Reading the store *)

Lemma persisted_stringify (l : list jsstring) :
  persisted (Some (JSON_stringify l)) = Some l.
Proof.
  unfold persisted.
  change (or_default (Some (JSON_stringify l)) (lit "[]"))
    with (JSON_stringify l).
  rewrite JSON_parse_stringify. apply strings_of_map.
Qed.

Lemma persisted_absent : persisted None = Some [].
Proof. reflexivity. Qed.

Lemma persisted_empty_text : persisted (Some []) = Some [].
Proof. reflexivity. Qed.

Lemma read_tasks_persisted (p : page) (S : list jsstring) :
  persisted (storage p) = Some S -> read_tasks p = ReadTasks S.
Proof.
  unfold persisted, read_tasks.
  destruct (JSON_parse (or_default (storage p) (lit "[]"))) as [[]|];
    try discriminate.
  now intros ->.
Qed.

Lemma read_tasks_syntax_error (p : page) :
  JSON_parse (or_default (storage p) (lit "[]")) = None ->
  read_tasks p = ReadThrows SyntaxError.
Proof. unfold read_tasks. now intros ->. Qed.

Arguments read_tasks : simpl never.
Arguments JSON_stringify : simpl never.
Arguments JSON_parse : simpl never.
Arguments trim : simpl never.
Arguments persisted : simpl never.

(** ** Loading *)

Lemma forEach_addTask (S : list jsstring) :
  forall p : page,
    forEach (fun taskText => Script.addTask taskText false) S p =
    Returned (mkPage (input p) (taskList p ++ S) (storage p) (listening p)
                     (alerts p) (boxes p) (uncaught p)).
Proof.
  induction S as [|t S IH]; intros p.
  - simpl. rewrite app_nil_r. destruct p; reflexivity.
  - simpl. unfold seq at 1. unfold Script.addTask, seq, appendChild, ret.
    rewrite IH. simpl. now rewrite <- app_assoc.
Qed.

Lemma Script_loadTasks (p : page) (S : list jsstring) :
  persisted (storage p) = Some S ->
  Script.loadTasks p =
  Returned (mkPage (input p) (taskList p ++ S) (storage p) (listening p)
                   (alerts p) (boxes p) (uncaught p)).
Proof.
  intros H. unfold Script.loadTasks.
  rewrite (read_tasks_persisted p S H). apply forEach_addTask.
Qed.

Lemma Script_initialize (stored : option jsstring) (typed : jsstring)
  (S : list jsstring) :
  persisted stored = Some S ->
  initialize script_js stored typed = Some (mkPage typed S stored true [] [] []).
Proof.
  intros H. unfold initialize, script_js, on_load, Script.DOMContentLoaded, seq.
  rewrite (Script_loadTasks (fresh stored typed) S H). reflexivity.
Qed.

Lemma Silent_initialize (stored : option jsstring) (typed : jsstring)
  (S : list jsstring) :
  persisted stored = Some S ->
  initialize silent_variant stored typed =
  Some (mkPage typed S stored true [] [] []).
Proof. exact (Script_initialize stored typed S). Qed.

(** C3.  Whatever sequence [S] the stored value stands for, loading the page
    renders the entries of [S], in the order of [S], attaches the listeners
    and throws nothing; the stored value is left as it was.  (The silent
    variant loads the same way.) *)
Theorem reload_renders_persisted (stored : option jsstring) (typed : jsstring)
  (S : list jsstring) :
  persisted stored = Some S ->
  exists p,
    initialize script_js stored typed = Some p /\
    initialize silent_variant stored typed = Some p /\
    taskList p = S /\
    List.length (taskList p) = List.length S /\
    storage p = stored /\
    uncaught p = [].
Proof.
  intros H. exists (mkPage typed S stored true [] [] []).
  rewrite (Script_initialize _ _ _ H), (Silent_initialize _ _ _ H).
  repeat split.
Qed.

Lemma reload_renders_persisted_witness :
  exists p,
    initialize script_js (Some (JSON_stringify [lit "A"; lit "B"])) [] = Some p /\
    initialize silent_variant (Some (JSON_stringify [lit "A"; lit "B"])) []
      = Some p /\
    taskList p = [lit "A"; lit "B"] /\
    List.length (taskList p) = List.length [lit "A"; lit "B"] /\
    storage p = Some (JSON_stringify [lit "A"; lit "B"]) /\
    uncaught p = [].
Proof.
  apply (reload_renders_persisted
           (Some (JSON_stringify [lit "A"; lit "B"])) [] [lit "A"; lit "B"]).
  vm_compute. reflexivity.
Defined.

(** C8.  With nothing stored under the key, loading the page treats the
    store as the empty sequence: in each of the three variants the list
    stays empty, no error is left uncaught, the listeners are attached and
    the store is still absent. *)
Theorem missing_key_loads_empty (typed : jsstring) :
  persisted None = Some [] /\
  initialize script_js None typed = Some (mkPage typed [] None true [] [] []) /\
  initialize boxed_variant None typed = Some (mkPage typed [] None true [] [] []) /\
  initialize silent_variant None typed = Some (mkPage typed [] None true [] [] []).
Proof.
  split; [reflexivity|].
  rewrite (Script_initialize None typed [] persisted_absent).
  rewrite (Silent_initialize None typed [] persisted_absent).
  repeat split.
Qed.

(** ** The store under addition and removal *)

Lemma or_default_present (raw d : jsstring) :
  raw <> [] -> or_default (Some raw) d = raw.
Proof. destruct raw; [contradiction|reflexivity]. Qed.

Lemma Script_save (p : page) (t : jsstring) (S : list jsstring) :
  persisted (storage p) = Some S ->
  Script.saveTaskToLocalStorage t p =
  Returned (mkPage (input p) (taskList p) (Some (JSON_stringify (S ++ [t])))
                   (listening p) (alerts p) (boxes p) (uncaught p)).
Proof.
  intros H. unfold Script.saveTaskToLocalStorage.
  now rewrite (read_tasks_persisted p S H).
Qed.

Lemma Script_remove (p : page) (t : jsstring) (S : list jsstring) :
  persisted (storage p) = Some S ->
  Script.removeTaskFromLocalStorage t p =
  Returned (mkPage (input p) (taskList p) (Some (JSON_stringify (without t S)))
                   (listening p) (alerts p) (boxes p) (uncaught p)).
Proof.
  intros H. unfold Script.removeTaskFromLocalStorage.
  now rewrite (read_tasks_persisted p S H).
Qed.

Lemma In_without (u t : jsstring) (S : list jsstring) :
  In u (without t S) <-> In u S /\ u <> t.
Proof.
  unfold without. rewrite filter_In, negb_true_iff, str_eqb_neq. tauto.
Qed.

Lemma without_absent (t : jsstring) (S : list jsstring) :
  ~ In t S -> without t S = S.
Proof.
  intros H. unfold without. induction S as [|x S IH]; [reflexivity|].
  simpl. destruct (str_eqb x t) eqn:E.
  - apply str_eqb_eq in E. subst. exfalso. apply H. now left.
  - simpl. f_equal. apply IH. intros HIn. apply H. now right.
Qed.

Lemma without_idempotent (t : jsstring) (S : list jsstring) :
  without t (without t S) = without t S.
Proof.
  apply without_absent. rewrite In_without. intros [_ H]. now apply H.
Qed.

(** The click listener of [script.js] on a text that is not blank. *)
Lemma Script_click_adds (p : page) (S : list jsstring) :
  persisted (storage p) = Some S ->
  trim (input p) <> [] ->
  Script.addButton_click p =
  Returned (mkPage [] (taskList p ++ [trim (input p)])
                   (Some (JSON_stringify (S ++ [trim (input p)])))
                   (listening p) (alerts p) (boxes p) (uncaught p)).
Proof.
  intros H Ht. unfold Script.addButton_click.
  apply str_eqb_neq in Ht. rewrite Ht. simpl negb. cbv iota.
  unfold seq, Script.addTask, seq, appendChild.
  rewrite (Script_save _ (trim (input p)) S) by exact H. reflexivity.
Qed.

(** C9, as the scripts have it.  A stored text that is not empty and is not
    JSON makes [loadTasks] throw a [SyntaxError] that nothing catches: no
    entry is rendered and the store is left alone.  In [script.js] and in
    the silent variant the listeners are then never attached; the variant
    with the message box has attached them before. *)
Theorem malformed_store_throws (raw typed : jsstring) :
  raw <> [] ->
  JSON_parse raw = None ->
  Script.loadTasks (fresh (Some raw) typed)
    = Uncaught SyntaxError (fresh (Some raw) typed) /\
  initialize script_js (Some raw) typed
    = Some (mkPage typed [] (Some raw) false [] [] [SyntaxError]) /\
  initialize silent_variant (Some raw) typed
    = Some (mkPage typed [] (Some raw) false [] [] [SyntaxError]) /\
  initialize boxed_variant (Some raw) typed
    = Some (mkPage typed [] (Some raw) true [] [] [SyntaxError]).
Proof.
  intros Hne Hbad.
  assert (R : forall b, read_tasks (mkPage typed [] (Some raw) b [] [] [])
                        = ReadThrows SyntaxError).
  { intros b. apply read_tasks_syntax_error. simpl storage.
    now rewrite or_default_present. }
  unfold initialize, fresh, script_js, silent_variant, boxed_variant, on_load,
    Script.DOMContentLoaded, Silent.DOMContentLoaded, Boxed.DOMContentLoaded,
    Script.loadTasks, Silent.loadTasks, Boxed.loadTasks, seq, addEventListeners.
  simpl. rewrite !R. repeat split.
Qed.

Lemma malformed_store_throws_witness :
  Script.loadTasks (fresh (Some (lit "oops")) [])
    = Uncaught SyntaxError (fresh (Some (lit "oops")) []) /\
  initialize script_js (Some (lit "oops")) []
    = Some (mkPage [] [] (Some (lit "oops")) false [] [] [SyntaxError]) /\
  initialize silent_variant (Some (lit "oops")) []
    = Some (mkPage [] [] (Some (lit "oops")) false [] [] [SyntaxError]) /\
  initialize boxed_variant (Some (lit "oops")) []
    = Some (mkPage [] [] (Some (lit "oops")) true [] [] [SyntaxError]).
Proof.
  apply (malformed_store_throws (lit "oops") []).
  - discriminate.
  - vm_compute. reflexivity.
Defined.

(** C9, as the claim has it, fails on the empty text: it is present under
    the key and it is not JSON, yet [x || '[]'] replaces it like an absent
    value, so loading renders the empty sequence and throws nothing. *)
Lemma empty_text_is_defaulted :
  JSON_parse [] = None /\
  Script.loadTasks (fresh (Some []) []) = Returned (fresh (Some []) []) /\
  initialize script_js (Some []) []
    = Some (mkPage [] [] (Some []) true [] [] []) /\
  initialize silent_variant (Some []) []
    = Some (mkPage [] [] (Some []) true [] [] []).
Proof. vm_compute. repeat split. Qed.

(** C6.  From any persisted sequence [S], submitting "Buy milk" leaves the
    store holding [S] followed by "Buy milk", and a fresh load of that store
    renders "Buy milk" as the last entry. *)
Theorem add_then_reload (stored : option jsstring) (S : list jsstring) :
  persisted stored = Some S ->
  exists p q,
    session script_js stored (submit (lit "Buy milk")) = Some p /\
    storage p = Some (JSON_stringify (S ++ [lit "Buy milk"])) /\
    persisted (storage p) = Some (S ++ [lit "Buy milk"]) /\
    initialize script_js (storage p) [] = Some q /\
    taskList q = S ++ [lit "Buy milk"] /\
    last (taskList q) [] = lit "Buy milk".
Proof.
  intros H.
  exists (mkPage [] (S ++ [lit "Buy milk"])
                 (Some (JSON_stringify (S ++ [lit "Buy milk"]))) true [] [] []).
  exists (mkPage [] (S ++ [lit "Buy milk"])
                 (Some (JSON_stringify (S ++ [lit "Buy milk"]))) true [] [] []).
  unfold session. rewrite (Script_initialize stored [] S H).
  split.
  - unfold submit, run, dispatch, settle, set_value. simpl.
    rewrite (Script_click_adds _ S) by (try exact H; vm_compute; discriminate).
    reflexivity.
  - simpl storage. simpl taskList. rewrite persisted_stringify.
    rewrite (Script_initialize _ [] (S ++ [lit "Buy milk"]))
      by apply persisted_stringify.
    repeat split. apply last_last.
Qed.

Lemma add_then_reload_witness :
  exists p q,
    session script_js (Some (JSON_stringify [lit "Walk dog"]))
            (submit (lit "Buy milk")) = Some p /\
    storage p = Some (JSON_stringify ([lit "Walk dog"] ++ [lit "Buy milk"])) /\
    persisted (storage p) = Some ([lit "Walk dog"] ++ [lit "Buy milk"]) /\
    initialize script_js (storage p) [] = Some q /\
    taskList q = [lit "Walk dog"] ++ [lit "Buy milk"] /\
    last (taskList q) [] = lit "Buy milk".
Proof.
  apply (add_then_reload (Some (JSON_stringify [lit "Walk dog"])) [lit "Walk dog"]).
  vm_compute. reflexivity.
Defined.

(** C7.  With ["A","B","C"] stored and rendered, a click on the Remove button
    of the entry "B" leaves the visible list ["A","C"] and a store that
    holds ["A","C"], hence no "B". *)
Theorem remove_updates_both_surfaces :
  exists p0 p,
    initialize script_js (Some (JSON_stringify [lit "A"; lit "B"; lit "C"])) []
      = Some p0 /\
    taskList p0 = [lit "A"; lit "B"; lit "C"] /\
    run script_js [ClickRemove 1] p0 = Some p /\
    taskList p = [lit "A"; lit "C"] /\
    persisted (storage p) = Some [lit "A"; lit "C"] /\
    ~ In (lit "B") [lit "A"; lit "C"].
Proof.
  eexists. eexists.
  split; [vm_compute; reflexivity|].
  split; [reflexivity|].
  split; [vm_compute; reflexivity|].
  split; [reflexivity|].
  split; [vm_compute; reflexivity|].
  intros [H|[H|[]]]; discriminate H.
Qed.

(** C10.  Removing a text from the store twice leaves what removing it once
    leaves, and removing a text that does not occur leaves the persisted
    sequence as it was.  The three variants share the operation. *)
Theorem storage_removal_idempotent (p : page) (t : jsstring)
  (S : list jsstring) :
  persisted (storage p) = Some S ->
  exists p1,
    Script.removeTaskFromLocalStorage t p = Returned p1 /\
    Boxed.updateLocalStorageOnRemoval t p = Returned p1 /\
    Silent.removeTaskFromStorage t p = Returned p1 /\
    persisted (storage p1) = Some (without t S) /\
    Script.removeTaskFromLocalStorage t p1 = Returned p1 /\
    (~ In t S -> persisted (storage p1) = Some S).
Proof.
  intros H. eexists.
  split; [apply (Script_remove p t S H)|].
  split; [apply (Script_remove p t S H)|].
  split; [apply (Script_remove p t S H)|].
  simpl storage. rewrite persisted_stringify.
  split; [reflexivity|]. split.
  - rewrite (Script_remove _ t (without t S)) by apply persisted_stringify.
    simpl. now rewrite without_idempotent.
  - intros Hn. now rewrite without_absent.
Qed.

Lemma storage_removal_idempotent_witness :
  exists p1,
    Script.removeTaskFromLocalStorage (lit "B")
      (fresh (Some (JSON_stringify [lit "A"; lit "B"; lit "B"])) [])
      = Returned p1 /\
    Boxed.updateLocalStorageOnRemoval (lit "B")
      (fresh (Some (JSON_stringify [lit "A"; lit "B"; lit "B"])) [])
      = Returned p1 /\
    Silent.removeTaskFromStorage (lit "B")
      (fresh (Some (JSON_stringify [lit "A"; lit "B"; lit "B"])) [])
      = Returned p1 /\
    persisted (storage p1)
      = Some (without (lit "B") [lit "A"; lit "B"; lit "B"]) /\
    Script.removeTaskFromLocalStorage (lit "B") p1 = Returned p1 /\
    (~ In (lit "B") [lit "A"; lit "B"; lit "B"] ->
     persisted (storage p1) = Some [lit "A"; lit "B"; lit "B"]).
Proof.
  apply (storage_removal_idempotent
           (fresh (Some (JSON_stringify [lit "A"; lit "B"; lit "B"])) [])
           (lit "B") [lit "A"; lit "B"; lit "B"]).
  vm_compute. reflexivity.
Defined.

(** ** Removal: one entry of the list, every occurrence in the store *)

Lemma length_detach (i : nat) (l : list jsstring) (t : jsstring) :
  nth_error l i = Some t ->
  (List.length (detach i l) + 1 = List.length l)%nat.
Proof.
  intros H. assert (Hi : (i < List.length l)%nat).
  { apply nth_error_Some. congruence. }
  unfold detach. rewrite length_app, length_firstn, length_skipn. lia.
Qed.

Lemma nth_error_detach_before (i j : nat) (l : list jsstring) :
  (j < i)%nat -> nth_error (detach i l) j = nth_error l j.
Proof.
  revert j l. induction i as [|i IH]; intros j l H; [lia|].
  destruct l as [|x l]; [destruct j; reflexivity|].
  destruct j as [|j]; [reflexivity|].
  apply (IH j l). lia.
Qed.

Lemma nth_error_detach_after (i j : nat) (l : list jsstring) :
  (i <= j)%nat -> nth_error (detach i l) j = nth_error l (1 + j).
Proof.
  revert j l. induction i as [|i IH]; intros j l H.
  - destruct l; [destruct j|]; reflexivity.
  - destruct l as [|x l]; [destruct j; reflexivity|].
    destruct j as [|j]; [lia|].
    apply (IH j l). lia.
Qed.

Lemma count_occ_without (u t : jsstring) (S : list jsstring) :
  u <> t ->
  count_occ (list_eq_dec N.eq_dec) (without t S) u
  = count_occ (list_eq_dec N.eq_dec) S u.
Proof.
  intros Hu. unfold without. induction S as [|x S IH]; [reflexivity|].
  simpl. destruct (str_eqb x t) eqn:Ex; simpl.
  - apply str_eqb_eq in Ex. subst x.
    destruct (list_eq_dec N.eq_dec t u); [congruence|exact IH].
  - destruct (list_eq_dec N.eq_dec x u); [f_equal|]; exact IH.
Qed.

(** C2.  A click on the Remove button of the entry at position [i], showing
    [t], does the same in the three variants: the list loses that one
    entry, the others keeping their order, and the store loses every
    occurrence of [t], the other texts keeping theirs. *)
Theorem removal_by_value (p : page) (i : nat) (t : jsstring)
  (S : list jsstring) :
  nth_error (taskList p) i = Some t ->
  persisted (storage p) = Some S ->
  exists p',
    dispatch script_js (ClickRemove i) p = Returned p' /\
    dispatch boxed_variant (ClickRemove i) p = Returned p' /\
    dispatch silent_variant (ClickRemove i) p = Returned p' /\
    taskList p' = firstn i (taskList p) ++ skipn (1 + i) (taskList p) /\
    (List.length (taskList p') + 1 = List.length (taskList p))%nat /\
    (forall j, (j < i)%nat ->
               nth_error (taskList p') j = nth_error (taskList p) j) /\
    (forall j, (i <= j)%nat ->
               nth_error (taskList p') j = nth_error (taskList p) (1 + j)) /\
    storage p' = Some (JSON_stringify (without t S)) /\
    persisted (storage p') = Some (without t S) /\
    ~ In t (without t S) /\
    (forall u, u <> t -> count_occ (list_eq_dec N.eq_dec) (without t S) u
                         = count_occ (list_eq_dec N.eq_dec) S u).
Proof.
  intros Hi HS.
  exists (mkPage (input p) (detach i (taskList p))
                 (Some (JSON_stringify (without t S)))
                 (listening p) (alerts p) (boxes p) (uncaught p)).
  assert (E : dispatch script_js (ClickRemove i) p =
              Returned (mkPage (input p) (detach i (taskList p))
                               (Some (JSON_stringify (without t S)))
                               (listening p) (alerts p) (boxes p) (uncaught p))).
  { unfold dispatch. rewrite Hi. unfold script_js, on_remove,
      Script.removeBtn_onclick, seq, removeChild.
    now rewrite (Script_remove _ t S) by exact HS. }
  split; [exact E|]. split; [exact E|]. split; [exact E|].
  simpl taskList. simpl storage.
  split; [reflexivity|].
  split; [apply (length_detach i _ t Hi)|].
  split; [intros j Hj; now apply nth_error_detach_before|].
  split; [intros j Hj; now apply nth_error_detach_after|].
  split; [reflexivity|].
  split; [apply persisted_stringify|].
  split; [rewrite In_without; intros [_ H]; now apply H|].
  intros u Hu. now apply count_occ_without.
Qed.

Lemma removal_by_value_witness :
  exists p',
    dispatch script_js (ClickRemove 0)
      (mkPage [] [lit "X"; lit "X"]
              (Some (JSON_stringify [lit "X"; lit "X"])) true [] [] [])
      = Returned p' /\
    dispatch boxed_variant (ClickRemove 0)
      (mkPage [] [lit "X"; lit "X"]
              (Some (JSON_stringify [lit "X"; lit "X"])) true [] [] [])
      = Returned p' /\
    dispatch silent_variant (ClickRemove 0)
      (mkPage [] [lit "X"; lit "X"]
              (Some (JSON_stringify [lit "X"; lit "X"])) true [] [] [])
      = Returned p' /\
    taskList p' = firstn 0 [lit "X"; lit "X"] ++ skipn 1 [lit "X"; lit "X"] /\
    (List.length (taskList p') + 1 = 2)%nat /\
    (forall j, (j < 0)%nat ->
               nth_error (taskList p') j = nth_error [lit "X"; lit "X"] j) /\
    (forall j, (0 <= j)%nat ->
               nth_error (taskList p') j = nth_error [lit "X"; lit "X"] (1 + j)) /\
    storage p' = Some (JSON_stringify (without (lit "X") [lit "X"; lit "X"])) /\
    persisted (storage p') = Some (without (lit "X") [lit "X"; lit "X"]) /\
    ~ In (lit "X") (without (lit "X") [lit "X"; lit "X"]) /\
    (forall u, u <> lit "X" ->
               count_occ (list_eq_dec N.eq_dec)
                         (without (lit "X") [lit "X"; lit "X"]) u
               = count_occ (list_eq_dec N.eq_dec) [lit "X"; lit "X"] u).
Proof.
  apply (removal_by_value
           (mkPage [] [lit "X"; lit "X"]
                   (Some (JSON_stringify [lit "X"; lit "X"])) true [] [] [])
           0 (lit "X") [lit "X"; lit "X"]).
  - reflexivity.
  - vm_compute. reflexivity.
Defined.

(** ** Empty submissions *)

Lemma enter_is_click :
  Script.taskInput_keypress (lit "Enter") = Script.addButton_click /\
  Boxed.taskInput_keypress (lit "Enter") = Boxed.addButton_click /\
  Silent.taskInput_keypress (lit "Enter") = Silent.addButton_click.
Proof. repeat split. Qed.

Lemma Script_click_blank (p : page) :
  whitespace_only (input p) = true ->
  Script.addButton_click p = alert (lit "Please enter a task.") p.
Proof.
  intros H. apply trim_nil in H. unfold Script.addButton_click.
  now rewrite H.
Qed.

Lemma Boxed_click_blank (p : page) :
  whitespace_only (input p) = true ->
  Boxed.addButton_click p
  = appendBox (error_box (lit "Please enter a task.")) p.
Proof.
  intros H. apply trim_nil in H.
  unfold Boxed.addButton_click, Boxed.addTask. now rewrite H.
Qed.

Lemma Silent_click_blank (p : page) :
  whitespace_only (input p) = true ->
  Silent.addButton_click p = Returned p.
Proof.
  intros H. apply trim_nil in H. unfold Silent.addButton_click.
  now rewrite H.
Qed.

Lemma app_one_neq {A : Type} (l : list A) (x : A) : l ++ [x] <> l.
Proof.
  intros H. apply (f_equal (@List.length A)) in H.
  rewrite length_app in H. simpl in H. lia.
Qed.

Lemma script_js_rejects_empty : rejects_empty_submission script_js.
Proof.
  intros p Hw. unfold script_js, on_click.
  rewrite Script_click_blank by exact Hw.
  eexists. split; [reflexivity|]. simpl. repeat split.
  left. apply app_one_neq.
Qed.

Lemma boxed_variant_rejects_empty : rejects_empty_submission boxed_variant.
Proof.
  intros p Hw. unfold boxed_variant, on_click.
  rewrite Boxed_click_blank by exact Hw.
  eexists. split; [reflexivity|]. simpl. repeat split.
  right. apply app_one_neq.
Qed.

(** C4, as the scripts have it.  When the input field holds an empty or
    blank text, the submit handler of each variant (the click listener, and
    the keypress listener on Enter) adds no entry and leaves the store and
    the input field alone.  [script.js] then shows an alert and the variant
    with the message box appends an error box, both reading "Please enter a
    task."; the silent variant shows nothing and changes nothing. *)
Theorem empty_submission (p : page) :
  whitespace_only (input p) = true ->
  Script.addButton_click p
    = Returned (mkPage (input p) (taskList p) (storage p) (listening p)
                       (alerts p ++ [lit "Please enter a task."])
                       (boxes p) (uncaught p)) /\
  Script.taskInput_keypress (lit "Enter") p = Script.addButton_click p /\
  Boxed.addButton_click p
    = Returned (mkPage (input p) (taskList p) (storage p) (listening p)
                       (alerts p)
                       (boxes p ++ [mkBox (lit "Please enter a task.") true])
                       (uncaught p)) /\
  Boxed.taskInput_keypress (lit "Enter") p = Boxed.addButton_click p /\
  Silent.addButton_click p = Returned p /\
  Silent.taskInput_keypress (lit "Enter") p = Silent.addButton_click p.
Proof.
  intros Hw. destruct enter_is_click as [E1 [E2 E3]].
  rewrite E1, E2, E3.
  rewrite Script_click_blank, Boxed_click_blank, Silent_click_blank
    by exact Hw.
  repeat split.
Qed.

Lemma empty_submission_witness :
  Script.addButton_click (mkPage (lit "   ") [] None true [] [] [])
    = Returned (mkPage (lit "   ") [] None true
                       [lit "Please enter a task."] [] []) /\
  Script.taskInput_keypress (lit "Enter")
      (mkPage (lit "   ") [] None true [] [] [])
    = Script.addButton_click (mkPage (lit "   ") [] None true [] [] []) /\
  Boxed.addButton_click (mkPage (lit "   ") [] None true [] [] [])
    = Returned (mkPage (lit "   ") [] None true []
                       [mkBox (lit "Please enter a task.") true] []) /\
  Boxed.taskInput_keypress (lit "Enter")
      (mkPage (lit "   ") [] None true [] [] [])
    = Boxed.addButton_click (mkPage (lit "   ") [] None true [] [] []) /\
  Silent.addButton_click (mkPage (lit "   ") [] None true [] [] [])
    = Returned (mkPage (lit "   ") [] None true [] [] []) /\
  Silent.taskInput_keypress (lit "Enter")
      (mkPage (lit "   ") [] None true [] [] [])
    = Silent.addButton_click (mkPage (lit "   ") [] None true [] [] []).
Proof.
  apply (empty_submission (mkPage (lit "   ") [] None true [] [] [])).
  reflexivity.
Defined.

(** C4, as the claim has it, fails on the silent variant: a blank submission
    is dropped there without any message. *)
Lemma silent_variant_shows_nothing :
  ~ (rejects_empty_submission script_js /\
     rejects_empty_submission boxed_variant /\
     rejects_empty_submission silent_variant).
Proof.
  intros [_ [_ H]].
  destruct (H (mkPage (lit "   ") [] None true [] [] []) eq_refl)
    as [p' [Hrun [_ [_ Hm]]]].
  vm_compute in Hrun. injection Hrun as <-.
  destruct Hm as [Hm|Hm]; apply Hm; reflexivity.
Qed.

(** ** The three variants compared *)

(** The silent variant does to a muted page what [script.js] does to the
    page, alerts apart. *)
Lemma silent_step (e : event) (p : page) :
  settle (dispatch silent_variant e (mute p))
  = option_map mute (settle (dispatch script_js e p)).
Proof.
  destruct e as [text| |key|i]; unfold dispatch.
  - reflexivity.
  - simpl listening. destruct (listening p); [|reflexivity].
    unfold silent_variant, script_js, on_click,
      Silent.addButton_click, Script.addButton_click.
    simpl input. destruct (str_eqb (trim (input p)) []); simpl negb; cbv iota.
    + reflexivity.
    + unfold seq, Silent.addTask, Script.addTask, seq, appendChild,
        Silent.saveTaskToStorage, Script.saveTaskToLocalStorage.
      read_at p. destruct (read_tasks p); reflexivity.
  - simpl listening. destruct (listening p); [|reflexivity].
    unfold silent_variant, script_js, on_keypress,
      Silent.taskInput_keypress, Script.taskInput_keypress.
    destruct (str_eqb key (lit "Enter")); [|reflexivity].
    simpl input. destruct (str_eqb (trim (input p)) []); simpl negb; cbv iota.
    + reflexivity.
    + unfold seq, Silent.addTask, Script.addTask, seq, appendChild,
        Silent.saveTaskToStorage, Script.saveTaskToLocalStorage.
      read_at p. destruct (read_tasks p); reflexivity.
  - simpl taskList. destruct (nth_error (taskList p) i) as [t|]; [|reflexivity].
    unfold silent_variant, script_js, on_remove, Silent.removeBtn_onclick,
      Script.removeBtn_onclick, seq, removeChild,
      Silent.removeTaskFromStorage, Script.removeTaskFromLocalStorage.
    read_at p. destruct (read_tasks p); reflexivity.
Qed.

Lemma silent_run (es : list event) :
  forall p : page,
    run silent_variant es (mute p) = option_map mute (run script_js es p).
Proof.
  induction es as [|e es IH]; intros p; [reflexivity|].
  simpl run. rewrite silent_step.
  destruct (settle (dispatch script_js e p)) as [p'|]; [apply IH|reflexivity].
Qed.

Lemma silent_initialize (stored : option jsstring) (typed : jsstring) :
  initialize silent_variant stored typed
  = option_map mute (initialize script_js stored typed).
Proof.
  unfold initialize, silent_variant, script_js, on_load,
    Silent.DOMContentLoaded, Script.DOMContentLoaded, seq,
    Silent.loadTasks, Script.loadTasks.
  destruct (read_tasks (fresh stored typed)) as [S| |]; [|reflexivity..].
  change (fun task => Silent.addTask task false)
    with (fun taskText => Script.addTask taskText false).
  rewrite forEach_addTask. reflexivity.
Qed.

Lemma silent_session (stored : option jsstring) (es : list event) :
  session silent_variant stored es
  = option_map mute (session script_js stored es).
Proof.
  unfold session. rewrite silent_initialize.
  destruct (initialize script_js stored []) as [p|]; [|reflexivity].
  apply silent_run.
Qed.

Lemma Boxed_forEach_addTask (S : list jsstring) :
  ~ In [] S ->
  forall p : page,
    forEach (fun taskText => Boxed.addTask (Some taskText) false) S p =
    Returned (mkPage match S with [] => input p | _ :: _ => [] end
                     (taskList p ++ S) (storage p) (listening p)
                     (alerts p) (boxes p) (uncaught p)).
Proof.
  induction S as [|t S IH]; intros Hne p.
  - simpl. rewrite app_nil_r. destruct p; reflexivity.
  - assert (Ht : t <> []) by (intros ->; apply Hne; now left).
    assert (HS : ~ In [] S) by (intros H; apply Hne; now right).
    destruct t as [|c t]; [contradiction|].
    simpl forEach. unfold seq at 1.
    unfold Boxed.addTask at 1. simpl str_eqb. cbv iota.
    unfold seq, appendChild, set_value, ret. rewrite (IH HS). simpl.
    rewrite <- app_assoc. destruct S; reflexivity.
Qed.

Lemma Boxed_initialize (stored : option jsstring) (S : list jsstring) :
  persisted stored = Some S ->
  ~ In [] S ->
  initialize boxed_variant stored [] = Some (mkPage [] S stored true [] [] []).
Proof.
  intros H Hne.
  unfold initialize, boxed_variant, on_load, Boxed.DOMContentLoaded, seq,
    addEventListeners, Boxed.loadTasks.
  rewrite (read_tasks_persisted _ S) by exact H.
  rewrite (Boxed_forEach_addTask S Hne). simpl. destruct S; reflexivity.
Qed.




(** A submission of a text that is not blank, on a page whose store parses
    to [S]: each variant appends the trimmed text to the list and to the
    store, and empties the input field. *)
Theorem submission_appends (p : page) (S : list jsstring) :
  persisted (storage p) = Some S ->
  trim (input p) <> [] ->
  exists p',
    Script.addButton_click p = Returned p' /\
    Boxed.addButton_click p = Returned p' /\
    Silent.addButton_click p = Returned p' /\
    input p' = [] /\
    taskList p' = taskList p ++ [trim (input p)] /\
    storage p' = Some (JSON_stringify (S ++ [trim (input p)])) /\
    persisted (storage p') = Some (S ++ [trim (input p)]).
Proof.
  intros H Ht. eexists.
  split; [apply (Script_click_adds p S H Ht)|].
  split.
  { unfold Boxed.addButton_click, Boxed.addTask.
    pose proof Ht as Hb. apply str_eqb_neq in Hb. rewrite Hb.
    unfold seq, appendChild, set_value. read_at p.
    now rewrite (read_tasks_persisted p S H). }
  split.
  { unfold Silent.addButton_click.
    pose proof Ht as Hb. apply str_eqb_neq in Hb. rewrite Hb.
    unfold seq, Silent.addTask, seq, appendChild, Silent.saveTaskToStorage.
    read_at p. now rewrite (read_tasks_persisted p S H). }
  simpl. repeat split. apply persisted_stringify.
Qed.

Lemma submission_appends_witness :
  exists p',
    Script.addButton_click (mkPage (lit " Buy milk ") [] None true [] [] [])
      = Returned p' /\
    Boxed.addButton_click (mkPage (lit " Buy milk ") [] None true [] [] [])
      = Returned p' /\
    Silent.addButton_click (mkPage (lit " Buy milk ") [] None true [] [] [])
      = Returned p' /\
    input p' = [] /\
    taskList p' = [] ++ [trim (lit " Buy milk ")] /\
    storage p' = Some (JSON_stringify ([] ++ [trim (lit " Buy milk ")])) /\
    persisted (storage p') = Some ([] ++ [trim (lit " Buy milk ")]).
Proof.
  apply (submission_appends (mkPage (lit " Buy milk ") [] None true [] [] []) []).
  - reflexivity.
  - vm_compute. discriminate.
Defined.

Lemma Boxed_initialize_typed (stored : option jsstring) (typed : jsstring)
  (S : list jsstring) :
  persisted stored = Some S ->
  ~ In [] S ->
  initialize boxed_variant stored typed
  = Some (mkPage match S with [] => typed | _ :: _ => [] end
                 S stored true [] [] []).
Proof.
  intros H Hne.
  unfold initialize, boxed_variant, on_load, Boxed.DOMContentLoaded, seq,
    addEventListeners, Boxed.loadTasks.
  rewrite (read_tasks_persisted _ S) by exact H.
  rewrite (Boxed_forEach_addTask S Hne). reflexivity.
Qed.

(** The variant with the message box loads a stored array of strings as
    [script.js] does, provided none of them is empty, whatever the input
    field holds: the same entries in the same order, the listeners
    attached, nothing thrown, the store as it was.  It empties the input
    field if it renders an entry; [script.js] leaves the field alone. *)
Theorem boxed_reload (stored : option jsstring) (typed : jsstring)
  (S : list jsstring) :
  persisted stored = Some S ->
  ~ In [] S ->
  exists p q,
    initialize boxed_variant stored typed = Some p /\
    initialize script_js stored typed = Some q /\
    taskList p = S /\ taskList q = S /\
    listening p = true /\ listening q = true /\
    uncaught p = [] /\ uncaught q = [] /\
    storage p = stored /\ storage q = stored /\
    alerts p = [] /\ boxes p = [] /\
    input p = match S with [] => typed | _ :: _ => [] end /\
    input q = typed.
Proof.
  intros H Hne.
  rewrite (Boxed_initialize_typed stored typed S H Hne).
  rewrite (Script_initialize stored typed S H).
  eexists. eexists. repeat split.
Qed.

Lemma boxed_reload_witness :
  exists p q,
    initialize boxed_variant (Some (JSON_stringify [lit "A"; lit "B"]))
               (lit "draft") = Some p /\
    initialize script_js (Some (JSON_stringify [lit "A"; lit "B"]))
               (lit "draft") = Some q /\
    taskList p = [lit "A"; lit "B"] /\ taskList q = [lit "A"; lit "B"] /\
    listening p = true /\ listening q = true /\
    uncaught p = [] /\ uncaught q = [] /\
    storage p = Some (JSON_stringify [lit "A"; lit "B"]) /\
    storage q = Some (JSON_stringify [lit "A"; lit "B"]) /\
    alerts p = [] /\ boxes p = [] /\
    input p = [] /\
    input q = lit "draft".
Proof.
  apply (boxed_reload (Some (JSON_stringify [lit "A"; lit "B"]))
           (lit "draft") [lit "A"; lit "B"]).
  - vm_compute. reflexivity.
  - intros [H|[H|[]]]; discriminate H.
Defined.

(** ** The list and the store, side by side *)

Lemma without_detach (l : list jsstring) :
  forall (i : nat) (t : jsstring),
    NoDup l -> nth_error l i = Some t -> without t l = detach i l.
Proof.
  induction l as [|x l IH]; intros i t Hd Hi; [destruct i; discriminate|].
  inversion Hd as [|? ? Hx Hl]; subst.
  destruct i as [|i]; simpl in Hi.
  - injection Hi as ->. unfold without. simpl. rewrite str_eqb_refl. simpl.
    apply (without_absent t l Hx).
  - assert (Hne : x <> t).
    { intros ->. apply Hx. eapply nth_error_In. exact Hi. }
    apply str_eqb_neq in Hne. unfold without, detach. simpl. rewrite Hne.
    simpl. f_equal. apply (IH i t Hl Hi).
Qed.

(** Where the entries of the list show different texts, an event of
    [script.js] keeps the list and the store in step. *)
Theorem in_sync_step (e : event) (p : page) :
  in_sync p ->
  (forall i, e = ClickRemove i -> NoDup (taskList p)) ->
  exists p', settle (dispatch script_js e p) = Some p' /\ in_sync p'.
Proof.
  unfold in_sync. intros H Hd.
  pose proof (read_tasks_persisted p _ H) as R.
  assert (Click : exists p', settle (Script.addButton_click p) = Some p' /\
                             persisted (storage p') = Some (taskList p')).
  { destruct (str_eqb (trim (input p)) []) eqn:E.
    - unfold Script.addButton_click. rewrite E. simpl.
      eexists. split; [reflexivity|exact H].
    - apply str_eqb_neq in E.
      rewrite (Script_click_adds p (taskList p) H E). simpl.
      eexists. split; [reflexivity|]. simpl. apply persisted_stringify. }
  destruct e as [text| |key|i]; unfold dispatch.
  - eexists. split; [reflexivity|exact H].
  - destruct (listening p); [exact Click|].
    eexists. split; [reflexivity|exact H].
  - destruct (listening p).
    + unfold script_js, on_keypress, Script.taskInput_keypress.
      destruct (str_eqb key (lit "Enter")); [exact Click|].
      eexists. split; [reflexivity|exact H].
    + eexists. split; [reflexivity|exact H].
  - destruct (nth_error (taskList p) i) as [t|] eqn:Hi.
    + unfold script_js, on_remove, Script.removeBtn_onclick, seq, removeChild.
      rewrite (Script_remove _ t (taskList p)) by exact H. simpl.
      eexists. split; [reflexivity|]. simpl.
      rewrite persisted_stringify. f_equal.
      apply without_detach; [apply (Hd i eq_refl)|exact Hi].
    + eexists. split; [reflexivity|exact H].
Qed.

Lemma in_sync_step_witness :
  exists p',
    settle (dispatch script_js (ClickRemove 1)
              (mkPage [] [lit "A"; lit "B"]
                      (Some (JSON_stringify [lit "A"; lit "B"])) true [] [] []))
      = Some p' /\
    in_sync p'.
Proof.
  apply (in_sync_step (ClickRemove 1)
           (mkPage [] [lit "A"; lit "B"]
                   (Some (JSON_stringify [lit "A"; lit "B"])) true [] [] [])).
  - vm_compute. reflexivity.
  - intros i _. repeat constructor; simpl; intuition discriminate.
Defined.

(** C1.  The invariant breaks on two entries with one text.  From an empty
    store, submit "X" twice and click Remove on the first entry: one "X" is
    still on the page, and the store holds none.  The same happens in the
    three variants. *)
Theorem duplicate_texts_desynchronise :
  exists p,
    session script_js None
            (submit (lit "X") ++ submit (lit "X") ++ [ClickRemove 0]) = Some p /\
    session boxed_variant None
            (submit (lit "X") ++ submit (lit "X") ++ [ClickRemove 0]) = Some p /\
    session silent_variant None
            (submit (lit "X") ++ submit (lit "X") ++ [ClickRemove 0]) = Some p /\
    taskList p = [lit "X"] /\
    storage p = Some (lit "[]") /\
    persisted (storage p) = Some [] /\
    ~ in_sync p.
Proof.
  eexists.
  split; [vm_compute; reflexivity|].
  split; [vm_compute; reflexivity|].
  split; [vm_compute; reflexivity|].
  split; [reflexivity|].
  split; [reflexivity|].
  split; [reflexivity|].
  unfold in_sync. vm_compute. discriminate.
Qed.

(** * Further properties of the scripts *)

(** ** Trimming *)

Lemma trimStart_split (s : jsstring) :
  exists w, s = w ++ trimStart s /\ whitespace_only w = true.
Proof.
  induction s as [|c s [w [E Hw]]]; [exists []; split; reflexivity|].
  simpl. destruct (is_space c) eqn:Hc.
  - exists (c :: w). split; [simpl; now f_equal|].
    unfold whitespace_only in *. simpl. now rewrite Hc.
  - exists []. split; reflexivity.
Qed.

Lemma trimStart_fixed (c : code_unit) (r : jsstring) :
  is_space c = false -> trimStart (c :: r) = c :: r.
Proof. intros H. simpl. now rewrite H. Qed.

Lemma trimStart_idempotent (s : jsstring) :
  trimStart (trimStart s) = trimStart s.
Proof.
  destruct (trimStart s) as [|c r] eqn:E; [reflexivity|].
  apply trimStart_fixed. exact (trimStart_head s c r E).
Qed.

Lemma trimEnd_prefix (s : jsstring) : exists w, s = trimEnd s ++ w.
Proof.
  destruct (trimStart_split (rev s)) as [w [E _]].
  exists (rev w). unfold trimEnd. rewrite <- rev_app_distr, <- E.
  symmetry. apply rev_involutive.
Qed.

Lemma trimEnd_idempotent (s : jsstring) : trimEnd (trimEnd s) = trimEnd s.
Proof.
  unfold trimEnd. now rewrite rev_involutive, trimStart_idempotent.
Qed.

(** Trimming a trimmed text changes nothing. *)
Lemma trim_idempotent (s : jsstring) : trim (trim s) = trim s.
Proof.
  unfold trim.
  assert (E : trimStart (trimEnd (trimStart s)) = trimEnd (trimStart s)).
  { destruct (trimEnd (trimStart s)) as [|x r] eqn:Ex; [reflexivity|].
    destruct (trimEnd_prefix (trimStart s)) as [w Hw].
    rewrite Ex in Hw. simpl in Hw.
    apply trimStart_fixed. exact (trimStart_head s x _ Hw). }
  rewrite E. apply trimEnd_idempotent.
Qed.

Lemma clean_trim (s : jsstring) : trim s <> [] -> clean (trim s).
Proof. intros H. split; [exact H|apply trim_idempotent]. Qed.

(** ** One event, over a store that reads *)

Lemma read_tasks_same_store (p q : page) :
  storage p = storage q -> read_tasks p = read_tasks q.
Proof. unfold read_tasks. now intros ->. Qed.

Lemma script_js_well_behaved : well_behaved script_js.
Proof.
  intros e p S H.
  assert (Click : forall e0, exists p',
             settle (Script.addButton_click p) = Some p' /\
             step_outcome e0 p p' S).
  { intros e0. destruct (str_eqb (trim (input p)) []) eqn:E.
    - unfold Script.addButton_click. rewrite E. simpl.
      eexists. split; [reflexivity|]. unfold step_outcome. simpl. tauto.
    - apply str_eqb_neq in E.
      rewrite (Script_click_adds p S H E). simpl.
      eexists. split; [reflexivity|]. unfold step_outcome. simpl.
      split; [reflexivity|]. split; [reflexivity|]. right. left. tauto. }
  destruct e as [text| |key|i]; unfold dispatch.
  - eexists. split; [reflexivity|]. unfold step_outcome. simpl. tauto.
  - destruct (listening p); [exact (Click _)|].
    eexists. split; [reflexivity|]. unfold step_outcome. tauto.
  - destruct (listening p).
    + unfold script_js, on_keypress, Script.taskInput_keypress.
      destruct (str_eqb key (lit "Enter")); [exact (Click _)|].
      eexists. split; [reflexivity|]. unfold step_outcome. tauto.
    + eexists. split; [reflexivity|]. unfold step_outcome. tauto.
  - destruct (nth_error (taskList p) i) as [t|] eqn:Hi.
    + unfold script_js, on_remove, Script.removeBtn_onclick, seq, removeChild.
      rewrite (Script_remove _ t S) by exact H. simpl.
      eexists. split; [reflexivity|]. unfold step_outcome. simpl.
      split; [reflexivity|]. split; [reflexivity|]. right. right.
      exists i, t. repeat split; try reflexivity; assumption.
    + eexists. split; [reflexivity|]. unfold step_outcome. tauto.
Qed.

Lemma silent_variant_well_behaved : well_behaved silent_variant.
Proof.
  intros e p S H.
  pose proof (read_tasks_persisted p S H) as R.
  assert (Click : forall e0, exists p',
             settle (Silent.addButton_click p) = Some p' /\
             step_outcome e0 p p' S).
  { intros e0. unfold Silent.addButton_click.
    destruct (str_eqb (trim (input p)) []) eqn:E; simpl negb; cbv iota.
    - eexists. split; [reflexivity|]. unfold step_outcome. tauto.
    - apply str_eqb_neq in E.
      unfold seq, Silent.addTask, seq, appendChild, Silent.saveTaskToStorage.
      read_at p. rewrite R. simpl.
      eexists. split; [reflexivity|]. unfold step_outcome. simpl.
      split; [reflexivity|]. split; [reflexivity|]. right. left. tauto. }
  destruct e as [text| |key|i]; unfold dispatch.
  - eexists. split; [reflexivity|]. unfold step_outcome. simpl. tauto.
  - destruct (listening p); [exact (Click _)|].
    eexists. split; [reflexivity|]. unfold step_outcome. tauto.
  - destruct (listening p).
    + unfold silent_variant, on_keypress, Silent.taskInput_keypress.
      destruct (str_eqb key (lit "Enter")); [exact (Click _)|].
      eexists. split; [reflexivity|]. unfold step_outcome. tauto.
    + eexists. split; [reflexivity|]. unfold step_outcome. tauto.
  - destruct (nth_error (taskList p) i) as [t|] eqn:Hi.
    + unfold silent_variant, on_remove, Silent.removeBtn_onclick, seq,
        removeChild, Silent.removeTaskFromStorage.
      read_at p. rewrite R. simpl.
      eexists. split; [reflexivity|]. unfold step_outcome. simpl.
      split; [reflexivity|]. split; [reflexivity|]. right. right.
      exists i, t. repeat split; try reflexivity; assumption.
    + eexists. split; [reflexivity|]. unfold step_outcome. tauto.
Qed.

Lemma boxed_variant_well_behaved : well_behaved boxed_variant.
Proof.
  intros e p S H.
  pose proof (read_tasks_persisted p S H) as R.
  assert (Click : forall e0, exists p',
             settle (Boxed.addButton_click p) = Some p' /\
             step_outcome e0 p p' S).
  { intros e0. unfold Boxed.addButton_click, Boxed.addTask.
    destruct (str_eqb (trim (input p)) []) eqn:E.
    - eexists. split; [reflexivity|]. unfold step_outcome. simpl. tauto.
    - apply str_eqb_neq in E.
      unfold seq, appendChild, set_value.
      read_at p. rewrite R. simpl.
      eexists. split; [reflexivity|]. unfold step_outcome. simpl.
      split; [reflexivity|]. split; [reflexivity|]. right. left. tauto. }
  destruct e as [text| |key|i]; unfold dispatch.
  - eexists. split; [reflexivity|]. unfold step_outcome. simpl. tauto.
  - destruct (listening p); [exact (Click _)|].
    eexists. split; [reflexivity|]. unfold step_outcome. tauto.
  - destruct (listening p).
    + unfold boxed_variant, on_keypress, Boxed.taskInput_keypress.
      destruct (str_eqb key (lit "Enter")); [exact (Click _)|].
      eexists. split; [reflexivity|]. unfold step_outcome. tauto.
    + eexists. split; [reflexivity|]. unfold step_outcome. tauto.
  - destruct (nth_error (taskList p) i) as [t|] eqn:Hi.
    + unfold boxed_variant, on_remove, Boxed.removeButton_onclick, seq,
        removeChild, Boxed.updateLocalStorageOnRemoval.
      read_at p. rewrite R. simpl.
      eexists. split; [reflexivity|]. unfold step_outcome. simpl.
      split; [reflexivity|]. split; [reflexivity|]. right. right.
      exists i, t. repeat split; try reflexivity; assumption.
    + eexists. split; [reflexivity|]. unfold step_outcome. tauto.
Qed.

Lemma In_detach (i : nat) (l : list jsstring) (x : jsstring) :
  In x (detach i l) -> In x l.
Proof.
  unfold detach. intros H. apply in_app_or in H as [H|H].
  - rewrite <- (firstn_skipn i l). apply in_or_app. now left.
  - rewrite <- (firstn_skipn (1 + i) l). apply in_or_app. now right.
Qed.

Lemma Forall_detach (P : jsstring -> Prop) (i : nat) (l : list jsstring) :
  Forall P l -> Forall P (detach i l).
Proof.
  rewrite !Forall_forall. intros H x Hx. apply H. eapply In_detach. exact Hx.
Qed.

Lemma Forall_without (P : jsstring -> Prop) (t : jsstring)
  (l : list jsstring) :
  Forall P l -> Forall P (without t l).
Proof.
  rewrite !Forall_forall. intros H x Hx. apply H.
  apply In_without in Hx. tauto.
Qed.

(** ** Sessions of a script whose handlers behave *)

Section Sessions.

Variable sc : script.
Hypothesis Hsc : well_behaved sc.



Lemma step_Forall (P : jsstring -> Prop) (e : event) (p : page)
  (S : list jsstring) :
  (forall s, trim s <> [] -> P (trim s)) ->
  persisted (storage p) = Some S ->
  Forall P (taskList p) ->
  Forall P S ->
  exists p' S',
    settle (dispatch sc e p) = Some p' /\
    persisted (storage p') = Some S' /\
    Forall P (taskList p') /\
    Forall P S'.
Proof.
  intros HP H Fl FS. destruct (Hsc e p S H) as [p' [E [U [L C]]]].
  destruct C as [[Hl Hs]|[[Ht [Hl Hs]]|[i [t [He [Hi [Hl Hs]]]]]]].
  - exists p', S. rewrite Hs, Hl. tauto.
  - exists p'. eexists. rewrite Hs, Hl.
    split; [exact E|]. split; [apply persisted_stringify|].
    split; apply Forall_app; split; try assumption;
      constructor; auto.
  - exists p'. eexists. rewrite Hs, Hl.
    split; [exact E|]. split; [apply persisted_stringify|].
    split; [now apply Forall_detach|now apply Forall_without].
Qed.

Lemma run_Forall (P : jsstring -> Prop) (es : list event) :
  (forall s, trim s <> [] -> P (trim s)) ->
  forall (p : page) (S : list jsstring),
    persisted (storage p) = Some S ->
    Forall P (taskList p) ->
    Forall P S ->
    exists p' S',
      run sc es p = Some p' /\
      persisted (storage p') = Some S' /\
      Forall P (taskList p') /\
      Forall P S'.
Proof.
  intros HP. induction es as [|e es IH]; intros p S H Fl FS.
  - exists p, S. repeat split; assumption.
  - destruct (step_Forall P e p S HP H Fl FS) as [p1 [S1 [E [H1 [Fl1 FS1]]]]].
    destruct (IH p1 S1 H1 Fl1 FS1) as [p' [S' [E' R]]].
    exists p', S'. simpl run. rewrite E. split; assumption.
Qed.

Lemma step_in_sync (e : event) (p : page) :
  in_sync p ->
  (forall i, e = ClickRemove i -> NoDup (taskList p)) ->
  exists p', settle (dispatch sc e p) = Some p' /\ in_sync p'.
Proof.
  unfold in_sync. intros H Hd.
  destruct (Hsc e p _ H) as [p' [E [U [L C]]]].
  exists p'. split; [exact E|].
  destruct C as [[Hl Hs]|[[Ht [Hl Hs]]|[i [t [He [Hi [Hl Hs]]]]]]];
    rewrite Hs, Hl; try assumption; rewrite persisted_stringify;
    try reflexivity.
  f_equal. apply without_detach; [exact (Hd i He)|exact Hi].
Qed.

Lemma run_in_sync (es : list event) :
  forall p : page,
    in_sync p ->
    (forall es1 es2 i q,
        es = es1 ++ ClickRemove i :: es2 ->
        run sc es1 p = Some q ->
        NoDup (taskList q)) ->
    exists p', run sc es p = Some p' /\ in_sync p'.
Proof.
  induction es as [|e es IH]; intros p H Hd.
  - exists p. split; [reflexivity|exact H].
  - destruct (step_in_sync e p H) as [p1 [E H1]].
    { intros i ->. apply (Hd [] es i p); reflexivity. }
    destruct (IH p1 H1) as [p' [E' H']].
    { intros es1 es2 i q Hes Hq.
      apply (Hd (e :: es1) es2 i q); [now rewrite Hes|].
      simpl run. now rewrite E. }
    exists p'. simpl run. rewrite E. split; assumption.
Qed.

End Sessions.

Lemma variants_well_behaved (sc : script) :
  In sc variants -> well_behaved sc.
Proof.
  intros [<-|[<-|[<-|[]]]].
  - apply script_js_well_behaved.
  - apply boxed_variant_well_behaved.
  - apply silent_variant_well_behaved.
Qed.

(** ** Loading, in the variant with the message box *)

Lemma filter_nonempty_all (S : list jsstring) :
  ~ In [] S -> filter nonempty S = S.
Proof.
  induction S as [|t S IH]; intros H; [reflexivity|].
  simpl. destruct t as [|c t]; [exfalso; apply H; now left|].
  simpl. f_equal. apply IH. intros HIn. apply H. now right.
Qed.

Lemma Boxed_forEach_blank (S : list jsstring) :
  forall p : page,
    whitespace_only (input p) = true ->
    forEach (fun taskText => Boxed.addTask (Some taskText) false) S p =
    Returned
      (mkPage match filter nonempty S with [] => input p | _ :: _ => [] end
              (taskList p ++ filter nonempty S) (storage p) (listening p)
              (alerts p)
              (boxes p ++ repeat (error_box (lit "Please enter a task."))
                                 (List.length S - List.length (filter nonempty S)))
              (uncaught p)).
Proof.
  induction S as [|t S IH]; intros p Hw.
  - simpl. rewrite !app_nil_r. destruct p; reflexivity.
  - pose proof (filter_length_le nonempty S) as Hle.
    simpl forEach. unfold seq at 1. destruct t as [|c t].
    + unfold Boxed.addTask at 1.
      pose proof Hw as Ht. apply trim_nil in Ht. rewrite Ht.
      simpl str_eqb. cbv iota. unfold Boxed.showMessage, appendBox.
      rewrite IH by exact Hw. simpl filter. simpl input. simpl taskList.
      simpl boxes. f_equal. f_equal.
      rewrite <- app_assoc. f_equal.
      change (mkBox (lit "Please enter a task.") (str_eqb (lit "error") (lit "error")))
        with (error_box (lit "Please enter a task.")).
      change (List.length ([] :: S)) with (1 + List.length S)%nat.
      replace (1 + List.length S - List.length (filter nonempty S))%nat
        with (1 + (List.length S - List.length (filter nonempty S)))%nat by lia.
      reflexivity.
    + unfold Boxed.addTask at 1. simpl str_eqb. cbv iota.
      unfold seq, appendChild, set_value, ret.
      rewrite IH by reflexivity. simpl.
      rewrite <- app_assoc. simpl.
      destruct (filter nonempty S); reflexivity.
Qed.

Lemma Boxed_initialize_blank (stored : option jsstring) (typed : jsstring)
  (S : list jsstring) :
  persisted stored = Some S ->
  whitespace_only typed = true ->
  initialize boxed_variant stored typed
  = Some (mkPage match filter nonempty S with [] => typed | _ :: _ => [] end
                 (filter nonempty S) stored true []
                 (repeat (error_box (lit "Please enter a task."))
                         (List.length S - List.length (filter nonempty S)))
                 []).
Proof.
  intros H Hw.
  unfold initialize, boxed_variant, on_load, Boxed.DOMContentLoaded, seq,
    addEventListeners, Boxed.loadTasks.
  rewrite (read_tasks_persisted _ S) by exact H.
  rewrite Boxed_forEach_blank by exact Hw. reflexivity.
Qed.

(** Every variant loads a readable store without an error, with the
    listeners attached and the store as it was. *)
Lemma variants_initialize (sc : script) (stored : option jsstring)
  (S : list jsstring) :
  In sc variants ->
  persisted stored = Some S ->
  exists p0,
    initialize sc stored [] = Some p0 /\
    storage p0 = stored /\ uncaught p0 = [] /\ listening p0 = true /\
    (taskList p0 = S \/ (sc = boxed_variant /\ taskList p0 = filter nonempty S)).
Proof.
  intros [<-|[<-|[<-|[]]]] H.
  - rewrite (Script_initialize stored [] S H). eexists. split; [reflexivity|].
    simpl. tauto.
  - rewrite (Boxed_initialize_blank stored [] S H eq_refl).
    eexists. split; [reflexivity|]. simpl. tauto.
  - rewrite (Silent_initialize stored [] S H). eexists. split; [reflexivity|].
    simpl. tauto.
Qed.

(** ** Whole sessions *)



(** The tasks stay trimmed.  When every stored task is a text that is not
    empty and has no white space at either end, so is every entry of the
    list and every task of the store after any session of any variant. *)
Theorem tasks_stay_clean (sc : script) (stored : option jsstring)
  (S : list jsstring) (es : list event) :
  In sc variants ->
  persisted stored = Some S ->
  Forall clean S ->
  exists p S',
    session sc stored es = Some p /\
    Forall clean (taskList p) /\
    persisted (storage p) = Some S' /\
    Forall clean S'.
Proof.
  intros Hsc H HS.
  destruct (variants_initialize sc stored S Hsc H) as [p0 [E0 [Hs [_ [_ Hl]]]]].
  assert (H0 : persisted (storage p0) = Some S) by now rewrite Hs.
  assert (Fl : Forall clean (taskList p0)).
  { destruct Hl as [->|[_ ->]]; [exact HS|].
    rewrite Forall_forall in *. intros x Hx. apply HS.
    apply filter_In in Hx. tauto. }
  destruct (run_Forall sc (variants_well_behaved sc Hsc) clean es clean_trim
              p0 S H0 Fl HS) as [p [S' [E [H' [Fl' FS']]]]].
  exists p, S'. unfold session. rewrite E0. tauto.
Qed.

Lemma tasks_stay_clean_witness :
  exists p S',
    session script_js (Some (JSON_stringify [lit "A"]))
            (submit (lit "  B ") ++ [ClickRemove 0]) = Some p /\
    Forall clean (taskList p) /\
    persisted (storage p) = Some S' /\
    Forall clean S'.
Proof.
  apply (tasks_stay_clean script_js (Some (JSON_stringify [lit "A"]))
           [lit "A"]).
  - left. reflexivity.
  - vm_compute. reflexivity.
  - repeat constructor. discriminate.
Defined.

(** The list and the store agree after a session, in any variant, when at
    each click on a Remove button no two entries of the list show the same
    text.  (For the variant with the message box the stored array must
    hold no empty string, which it would not render.) *)
Theorem distinct_texts_stay_in_sync (sc : script)
  (stored : option jsstring) (S : list jsstring) (es : list event) :
  In sc variants ->
  persisted stored = Some S ->
  (sc = boxed_variant -> ~ In [] S) ->
  (forall es1 es2 i q,
      es = es1 ++ ClickRemove i :: es2 ->
      session sc stored es1 = Some q ->
      NoDup (taskList q)) ->
  exists p, session sc stored es = Some p /\ in_sync p.
Proof.
  intros Hsc H Hne Hd.
  destruct (variants_initialize sc stored S Hsc H) as [p0 [E0 [Hs [_ [_ Hl]]]]].
  assert (Hl0 : taskList p0 = S).
  { destruct Hl as [Hl|[Hb Hl]]; [exact Hl|].
    rewrite Hl. apply filter_nonempty_all. exact (Hne Hb). }
  assert (H0 : in_sync p0) by (unfold in_sync; now rewrite Hs, Hl0).
  unfold session in *. rewrite E0 in *.
  apply (run_in_sync sc (variants_well_behaved sc Hsc) es p0 H0).
  intros es1 es2 i q Hes Hq. apply (Hd es1 es2 i q Hes).
  exact Hq.
Qed.

Lemma distinct_texts_stay_in_sync_witness :
  exists p,
    session script_js (Some (JSON_stringify [lit "A"]))
            (submit (lit "B") ++ [ClickRemove 0]) = Some p /\
    in_sync p.
Proof.
  apply (distinct_texts_stay_in_sync script_js
           (Some (JSON_stringify [lit "A"])) [lit "A"]).
  - left. reflexivity.
  - vm_compute. reflexivity.
  - intros _ [H|[]]. discriminate H.
  - intros es1 es2 i q Hes Hq.
    destruct es1 as [|e1 [|e2 [|e3 es1]]]; simpl in Hes;
      [discriminate Hes | discriminate Hes | |].
    + injection Hes as <- <- _ _.
      vm_compute in Hq. injection Hq as <-.
      repeat constructor; simpl; intuition discriminate.
    + injection Hes as _ _ _ Hes. destruct es1; discriminate Hes.
Defined.

(** A session without a click on Remove loses nothing across a reload: in
    any variant the list and the store agree at its end, and loading the
    page again renders the list as it was.  (Same proviso for the variant
    with the message box.) *)
Theorem add_only_survives_reload (sc : script)
  (stored : option jsstring) (S : list jsstring) (es : list event) :
  In sc variants ->
  persisted stored = Some S ->
  (sc = boxed_variant -> ~ In [] S) ->
  (forall i, ~ In (ClickRemove i) es) ->
  exists p q,
    session sc stored es = Some p /\
    in_sync p /\
    initialize sc (storage p) [] = Some q /\
    taskList q = taskList p /\
    storage q = storage p.
Proof.
  intros Hsc H Hne Hno.
  destruct (variants_initialize sc stored S Hsc H) as [p0 [E0 [Hs [_ [_ Hl]]]]].
  assert (Hl0 : taskList p0 = S).
  { destruct Hl as [Hl|[Hb Hl]]; [exact Hl|].
    rewrite Hl. apply filter_nonempty_all. exact (Hne Hb). }
  assert (H0 : in_sync p0) by (unfold in_sync; now rewrite Hs, Hl0).
  destruct (run_in_sync sc (variants_well_behaved sc Hsc) es p0 H0)
    as [p [E Hp]].
  { intros es1 es2 i q Hes _. exfalso. apply (Hno i).
    rewrite Hes. apply in_or_app. right. now left. }
  destruct (variants_initialize sc (storage p) (taskList p) Hsc Hp)
    as [q [Eq [Hsq [_ [_ Hlq]]]]].
  exists p, q. unfold session. rewrite E0.
  split; [exact E|]. split; [exact Hp|]. split; [exact Eq|].
  split; [|exact Hsq].
  destruct Hlq as [Hlq|[Hb Hlq]]; [exact Hlq|].
  rewrite Hlq. apply filter_nonempty_all.
  assert (HS : persisted (storage p0) = Some S) by now rewrite Hs.
  destruct (run_Forall sc (variants_well_behaved sc Hsc)
              (fun t => t <> []) es (fun s Hs0 => Hs0) p0 S HS)
    as [p' [S' [E' [_ [Fl _]]]]].
  - rewrite Hl0. apply Forall_forall. intros x Hx ->. exact (Hne Hb Hx).
  - apply Forall_forall. intros x Hx ->. exact (Hne Hb Hx).
  - rewrite E in E'. injection E' as <-.
    rewrite Forall_forall in Fl. intros HIn. exact (Fl [] HIn eq_refl).
Qed.

Lemma add_only_survives_reload_witness :
  exists p q,
    session boxed_variant (Some (JSON_stringify [lit "A"]))
            (submit (lit "A") ++ submit []) = Some p /\
    in_sync p /\
    initialize boxed_variant (storage p) [] = Some q /\
    taskList q = taskList p /\
    storage q = storage p.
Proof.
  apply (add_only_survives_reload boxed_variant
           (Some (JSON_stringify [lit "A"])) [lit "A"]).
  - right. left. reflexivity.
  - vm_compute. reflexivity.
  - intros _ [H|[]]. discriminate H.
  - intros i [H|[H|[H|[H|[]]]]]; discriminate H.
Defined.

(** ** A store that does not read *)

(** A stored text that is JSON but no array makes the load throw a
    [TypeError]: [forEach] is not a method of the parsed value.  Nothing is
    rendered and the store is left alone; [script.js] and the silent
    variant never attach their listeners. *)
Theorem non_array_store_throws (raw typed : jsstring) (v : json) :
  raw <> [] ->
  JSON_parse raw = Some v ->
  (forall vs, v <> JArray vs) ->
  initialize script_js (Some raw) typed
    = Some (mkPage typed [] (Some raw) false [] [] [TypeError]) /\
  initialize silent_variant (Some raw) typed
    = Some (mkPage typed [] (Some raw) false [] [] [TypeError]) /\
  initialize boxed_variant (Some raw) typed
    = Some (mkPage typed [] (Some raw) true [] [] [TypeError]).
Proof.
  intros Hne Hv Hna.
  assert (R : forall b, read_tasks (mkPage typed [] (Some raw) b [] [] [])
                        = ReadThrows TypeError).
  { intros b. unfold read_tasks. simpl storage.
    rewrite or_default_present by exact Hne. rewrite Hv.
    destruct v; try reflexivity. exfalso. now apply (Hna elements). }
  unfold initialize, fresh, script_js, silent_variant, boxed_variant, on_load,
    Script.DOMContentLoaded, Silent.DOMContentLoaded, Boxed.DOMContentLoaded,
    Script.loadTasks, Silent.loadTasks, Boxed.loadTasks, seq, addEventListeners.
  simpl. rewrite !R. repeat split.
Qed.

Lemma non_array_store_throws_witness :
  initialize script_js (Some (lit "{}")) []
    = Some (mkPage [] [] (Some (lit "{}")) false [] [] [TypeError]) /\
  initialize silent_variant (Some (lit "{}")) []
    = Some (mkPage [] [] (Some (lit "{}")) false [] [] [TypeError]) /\
  initialize boxed_variant (Some (lit "{}")) []
    = Some (mkPage [] [] (Some (lit "{}")) true [] [] [TypeError]).
Proof.
  apply (non_array_store_throws (lit "{}") [] (JObject [])).
  - discriminate.
  - vm_compute. reflexivity.
  - discriminate.
Defined.

(** Without listeners and without entries no event reaches a handler. *)
Lemma dead_page_run (sc : script) (es : list event) :
  forall p : page,
    listening p = false ->
    taskList p = [] ->
    exists p',
      run sc es p = Some p' /\
      listening p' = false /\ taskList p' = [] /\
      storage p' = storage p /\ uncaught p' = uncaught p.
Proof.
  induction es as [|e es IH]; intros p Hl Ht.
  - exists p. repeat split; assumption.
  - assert (E : exists p1, settle (dispatch sc e p) = Some p1 /\
                  listening p1 = false /\ taskList p1 = [] /\
                  storage p1 = storage p /\ uncaught p1 = uncaught p).
    { destruct e as [text| |key|i]; unfold dispatch.
      - eexists. split; [reflexivity|]. simpl. tauto.
      - rewrite Hl. exists p. tauto.
      - rewrite Hl. exists p. tauto.
      - rewrite Ht. destruct i; exists p; tauto. }
    destruct E as [p1 [E [Hl1 [Ht1 [Hs1 Hu1]]]]].
    destruct (IH p1 Hl1 Ht1) as [p' [E' [Hl' [Ht' [Hs' Hu']]]]].
    exists p'. simpl run. rewrite E. repeat split; congruence.
Qed.

Lemma Boxed_step_unreadable (ev : event) (p : page) (e : error) :
  read_tasks p = ReadThrows e ->
  exists p', settle (dispatch boxed_variant ev p) = Some p' /\
             storage p' = storage p.
Proof.
  intros R.
  assert (Click : exists p', settle (Boxed.addButton_click p) = Some p' /\
                             storage p' = storage p).
  { unfold Boxed.addButton_click, Boxed.addTask.
    destruct (str_eqb (trim (input p)) []).
    - eexists. split; reflexivity.
    - unfold seq, appendChild, set_value. read_at p. rewrite R.
      eexists. split; reflexivity. }
  destruct ev as [text| |key|i]; unfold dispatch.
  - eexists. split; reflexivity.
  - destruct (listening p); [exact Click|]. eexists. split; reflexivity.
  - destruct (listening p); [|eexists; split; reflexivity].
    unfold boxed_variant, on_keypress, Boxed.taskInput_keypress.
    destruct (str_eqb key (lit "Enter")); [exact Click|].
    eexists. split; reflexivity.
  - destruct (nth_error (taskList p) i) as [t|]; [|eexists; split; reflexivity].
    unfold boxed_variant, on_remove, Boxed.removeButton_onclick, seq,
      removeChild, Boxed.updateLocalStorageOnRemoval.
    read_at p. rewrite R. eexists. split; reflexivity.
Qed.

Lemma Boxed_run_unreadable (es : list event) :
  forall (p : page) (e : error),
    read_tasks p = ReadThrows e ->
    exists p', run boxed_variant es p = Some p' /\ storage p' = storage p.
Proof.
  induction es as [|ev es IH]; intros p e R.
  - exists p. split; reflexivity.
  - destruct (Boxed_step_unreadable ev p e R) as [p1 [E Hs]].
    assert (R1 : read_tasks p1 = ReadThrows e).
    { rewrite (read_tasks_same_store p1 p Hs). exact R. }
    destruct (IH p1 e R1) as [p' [E' Hs']].
    exists p'. simpl run. rewrite E. split; [exact E'|congruence].
Qed.

(** A stored value that does not read as an array (a text that is not
    JSON, or JSON that is no array) is never overwritten, whatever the
    user does, in any variant.  In [script.js] and in the silent variant
    the page is dead after the failed load: the listeners are never
    attached and the list stays empty. *)
Theorem unreadable_store_is_kept (sc : script) (stored : option jsstring)
  (e : error) (es : list event) :
  In sc variants ->
  read_tasks (fresh stored []) = ReadThrows e ->
  exists p,
    session sc stored es = Some p /\
    storage p = stored /\
    (sc = script_js \/ sc = silent_variant ->
     taskList p = [] /\ listening p = false /\ uncaught p = [e]).
Proof.
  intros Hsc R.
  assert (Dead : forall sc0,
             initialize sc0 stored []
               = Some (mkPage [] [] stored false [] [] [e]) ->
             exists p, session sc0 stored es = Some p /\ storage p = stored /\
                       taskList p = [] /\ listening p = false /\
                       uncaught p = [e]).
  { intros sc0 E0.
    destruct (dead_page_run sc0 es (mkPage [] [] stored false [] [] [e])
                eq_refl eq_refl) as [p [E [Hl [Ht [Hs Hu]]]]].
    exists p. unfold session. rewrite E0. tauto. }
  destruct Hsc as [<-|[<-|[<-|[]]]].
  - destruct (Dead script_js) as [p [E [Hs Hr]]].
    { unfold initialize, script_js, on_load, Script.DOMContentLoaded, seq,
        Script.loadTasks. now rewrite R. }
    exists p. tauto.
  - assert (E0 : initialize boxed_variant stored []
                 = Some (mkPage [] [] stored true [] [] [e])).
    { unfold initialize, boxed_variant, on_load, Boxed.DOMContentLoaded, seq,
        addEventListeners, Boxed.loadTasks.
      read_at (fresh stored []). rewrite R. reflexivity. }
    destruct (Boxed_run_unreadable es (mkPage [] [] stored true [] [] [e]) e)
      as [p [E Hs]].
    { read_at (fresh stored []). exact R. }
    exists p. unfold session. rewrite E0.
    split; [exact E|]. split; [exact Hs|].
    intros [H|H]; exfalso; apply (f_equal on_click) in H;
      apply (f_equal (fun a => a (fresh None []))) in H;
      vm_compute in H; discriminate H.
  - destruct (Dead silent_variant) as [p [E [Hs Hr]]].
    { unfold initialize, silent_variant, on_load, Silent.DOMContentLoaded, seq,
        Silent.loadTasks. now rewrite R. }
    exists p. tauto.
Qed.

Lemma unreadable_store_is_kept_witness :
  exists p,
    session script_js (Some (lit "oops"))
            (submit (lit "A") ++ [Keypress (lit "Enter"); ClickRemove 0])
      = Some p /\
    storage p = Some (lit "oops") /\
    (script_js = script_js \/ script_js = silent_variant ->
     taskList p = [] /\ listening p = false /\ uncaught p = [SyntaxError]).
Proof.
  apply (unreadable_store_is_kept script_js (Some (lit "oops")) SyntaxError).
  - left. reflexivity.
  - vm_compute. reflexivity.
Defined.

(** When the store does not read, a handler still does what comes before
    the read.  A click on Remove detaches the entry and then throws,
    whatever the input field holds.  A submission of a text that is not
    blank renders the entry and then throws, so the entry is on the page
    and not in the store; the input field is emptied only by the variant
    with the message box, which empties it before it saves. *)
Theorem effects_before_the_throw (p : page) (e : error) (i : nat)
  (t : jsstring) :
  read_tasks p = ReadThrows e ->
  Script.removeBtn_onclick i t p
    = Uncaught e (mkPage (input p) (detach i (taskList p))
                         (storage p) (listening p) (alerts p) (boxes p)
                         (uncaught p)) /\
  Silent.removeBtn_onclick i t p = Script.removeBtn_onclick i t p /\
  Boxed.removeButton_onclick i t p = Script.removeBtn_onclick i t p /\
  (trim (input p) <> [] ->
   Script.addButton_click p
     = Uncaught e (mkPage (input p) (taskList p ++ [trim (input p)])
                          (storage p) (listening p) (alerts p) (boxes p)
                          (uncaught p)) /\
   Silent.addButton_click p = Script.addButton_click p /\
   Boxed.addButton_click p
     = Uncaught e (mkPage [] (taskList p ++ [trim (input p)])
                          (storage p) (listening p) (alerts p) (boxes p)
                          (uncaught p))).
Proof.
  intros R.
  split; [|split; [|split]].
  - unfold Script.removeBtn_onclick, seq, removeChild,
      Script.removeTaskFromLocalStorage.
    read_at p. now rewrite R.
  - reflexivity.
  - reflexivity.
  - intros Ht. apply str_eqb_neq in Ht.
    unfold Script.addButton_click, Silent.addButton_click,
      Boxed.addButton_click, Boxed.addTask.
    rewrite Ht. simpl negb. cbv iota.
    unfold seq, Script.addTask, Silent.addTask, seq, appendChild, set_value,
      Script.saveTaskToLocalStorage, Silent.saveTaskToStorage.
    read_at p. rewrite R. repeat split.
Qed.

Lemma effects_before_the_throw_witness :
  Script.removeBtn_onclick 0 (lit "B")
      (mkPage [] [lit "B"] (Some (lit "oops")) true [] [] [])
    = Uncaught SyntaxError
        (mkPage [] (detach 0 [lit "B"]) (Some (lit "oops")) true [] [] []) /\
  Silent.removeBtn_onclick 0 (lit "B")
      (mkPage [] [lit "B"] (Some (lit "oops")) true [] [] [])
    = Script.removeBtn_onclick 0 (lit "B")
        (mkPage [] [lit "B"] (Some (lit "oops")) true [] [] []) /\
  Boxed.removeButton_onclick 0 (lit "B")
      (mkPage [] [lit "B"] (Some (lit "oops")) true [] [] [])
    = Script.removeBtn_onclick 0 (lit "B")
        (mkPage [] [lit "B"] (Some (lit "oops")) true [] [] []) /\
  Script.addButton_click
      (mkPage (lit "A") [lit "B"] (Some (lit "oops")) true [] [] [])
    = Uncaught SyntaxError
        (mkPage (lit "A") ([lit "B"] ++ [trim (lit "A")])
                (Some (lit "oops")) true [] [] []) /\
  Silent.addButton_click
      (mkPage (lit "A") [lit "B"] (Some (lit "oops")) true [] [] [])
    = Script.addButton_click
        (mkPage (lit "A") [lit "B"] (Some (lit "oops")) true [] [] []) /\
  Boxed.addButton_click
      (mkPage (lit "A") [lit "B"] (Some (lit "oops")) true [] [] [])
    = Uncaught SyntaxError
        (mkPage [] ([lit "B"] ++ [trim (lit "A")])
                (Some (lit "oops")) true [] [] []).
Proof.
  destruct (effects_before_the_throw
              (mkPage [] [lit "B"] (Some (lit "oops")) true [] [] [])
              SyntaxError 0 (lit "B")) as [R1 [R2 [R3 _]]];
    [vm_compute; reflexivity|].
  destruct (effects_before_the_throw
              (mkPage (lit "A") [lit "B"] (Some (lit "oops")) true [] [] [])
              SyntaxError 0 (lit "B")) as [_ [_ [_ A]]];
    [vm_compute; reflexivity|].
  destruct A as [A1 [A2 A3]]; [vm_compute; discriminate|].
  repeat split; assumption.
Defined.

(** ** The Enter key *)

Lemma dispatch_enter_for_click (sc : script) (e : event) (p : page) :
  In sc variants ->
  dispatch sc (enter_for_click e) p = dispatch sc e p.
Proof.
  intros [<-|[<-|[<-|[]]]]; destruct e; reflexivity.
Qed.

(** In any variant the Enter key in the input field does what a click on
    Add does, so a session keeps its outcome when every click on Add is
    replaced by Enter; and any other key does nothing. *)
Theorem enter_submits_like_click (sc : script) (es : list event)
  (key : jsstring) (p : page) :
  In sc variants ->
  key <> lit "Enter" ->
  run sc (map enter_for_click es) p = run sc es p /\
  dispatch sc (Keypress key) p = Returned p.
Proof.
  intros Hsc Hk. split.
  - revert p. induction es as [|e es IH]; intros p; [reflexivity|].
    simpl. rewrite dispatch_enter_for_click by exact Hsc.
    destruct (settle (dispatch sc e p)); [apply IH|reflexivity].
  - apply str_eqb_neq in Hk.
    destruct Hsc as [<-|[<-|[<-|[]]]]; unfold dispatch;
      destruct (listening p); try reflexivity;
      unfold script_js, boxed_variant, silent_variant, on_keypress,
        Script.taskInput_keypress, Boxed.taskInput_keypress,
        Silent.taskInput_keypress; now rewrite Hk.
Qed.

Lemma enter_submits_like_click_witness :
  run boxed_variant
      (map enter_for_click (submit (lit "A") ++ submit []))
      (mkPage [] [] None true [] [] [])
    = run boxed_variant (submit (lit "A") ++ submit [])
          (mkPage [] [] None true [] [] []) /\
  dispatch boxed_variant (Keypress (lit "a"))
           (mkPage [] [] None true [] [] [])
    = Returned (mkPage [] [] None true [] [] []).
Proof.
  apply (enter_submits_like_click boxed_variant
           (submit (lit "A") ++ submit []) (lit "a")
           (mkPage [] [] None true [] [] [])).
  - right. left. reflexivity.
  - discriminate.
Defined.

(** ** Empty strings in the store, in the variant with the message box *)

Lemma count_empty (S : list jsstring) :
  (List.length S - List.length (filter nonempty S))%nat
  = count_occ (list_eq_dec N.eq_dec) S [].
Proof.
  induction S as [|t S IH]; [reflexivity|].
  pose proof (filter_length_le nonempty S) as Hle.
  destruct t as [|c t].
  - change (filter nonempty ([] :: S)) with (filter nonempty S).
    change (List.length ([] :: S)) with (1 + List.length S)%nat.
    cbn [count_occ].
    match goal with
    | |- context [list_eq_dec ?d ?a ?b] =>
        destruct (list_eq_dec d a b) as [_|Hn]; [|contradiction]
    end.
    rewrite <- IH. lia.
  - change (filter nonempty ((c :: t) :: S))
      with ((c :: t) :: filter nonempty S).
    cbn [count_occ List.length Nat.sub].
    match goal with
    | |- context [list_eq_dec ?d ?a ?b] =>
        destruct (list_eq_dec d a b) as [Hn|_]; [discriminate Hn|exact IH]
    end.
Qed.

(** With a blank input field, the variant with the message box renders
    only the stored strings that are not empty, and shows one message box
    for each empty one; the store is left as it was, so list and store are
    out of step as soon as the stored array holds an empty string. *)
Theorem boxed_load_skips_empty (stored : option jsstring)
  (typed : jsstring) (S : list jsstring) :
  persisted stored = Some S ->
  whitespace_only typed = true ->
  exists p,
    initialize boxed_variant stored typed = Some p /\
    taskList p = filter nonempty S /\
    boxes p = repeat (error_box (lit "Please enter a task."))
                     (count_occ (list_eq_dec N.eq_dec) S []) /\
    storage p = stored /\
    uncaught p = [] /\
    (In [] S -> ~ in_sync p).
Proof.
  intros H Hw. rewrite (Boxed_initialize_blank stored typed S H Hw).
  eexists. split; [reflexivity|]. simpl.
  split; [reflexivity|]. split.
  - f_equal. apply count_empty.
  - split; [reflexivity|]. split; [reflexivity|].
    intros HIn Hsync. unfold in_sync in Hsync. simpl in Hsync.
    rewrite H in Hsync. injection Hsync as Hsync.
    rewrite Hsync in HIn. apply filter_In in HIn as [_ HIn].
    discriminate HIn.
Qed.

Lemma boxed_load_skips_empty_witness :
  exists p,
    initialize boxed_variant (Some (JSON_stringify [lit "A"; []; lit "B"]))
               (lit "  ") = Some p /\
    taskList p = filter nonempty [lit "A"; []; lit "B"] /\
    boxes p = repeat (error_box (lit "Please enter a task."))
                     (count_occ (list_eq_dec N.eq_dec)
                                [lit "A"; []; lit "B"] []) /\
    storage p = Some (JSON_stringify [lit "A"; []; lit "B"]) /\
    uncaught p = [] /\
    (In [] [lit "A"; []; lit "B"] -> ~ in_sync p).
Proof.
  apply (boxed_load_skips_empty
           (Some (JSON_stringify [lit "A"; []; lit "B"])) (lit "  ")
           [lit "A"; []; lit "B"]).
  - vm_compute. reflexivity.
  - reflexivity.
Defined.

(** When the stored array starts with an empty string and the input field
    holds a text that is not blank, the variant with the message box
    renders the trimmed input in place of the empty string and empties the
    input field; the store is left as it was. *)
Theorem boxed_load_renders_input (stored : option jsstring)
  (typed : jsstring) (S : list jsstring) :
  persisted stored = Some ([] :: S) ->
  trim typed <> [] ->
  exists p,
    initialize boxed_variant stored typed = Some p /\
    taskList p = trim typed :: filter nonempty S /\
    input p = [] /\
    storage p = stored /\
    uncaught p = [].
Proof.
  intros H Ht. pose proof Ht as Hb. apply str_eqb_neq in Hb.
  unfold initialize, boxed_variant, on_load, Boxed.DOMContentLoaded, seq,
    addEventListeners, Boxed.loadTasks.
  rewrite (read_tasks_persisted _ ([] :: S)) by exact H.
  simpl forEach. unfold seq at 1. unfold Boxed.addTask at 1.
  simpl input. rewrite Hb. unfold seq, appendChild, set_value, ret.
  rewrite Boxed_forEach_blank by reflexivity.
  eexists. split; [reflexivity|]. simpl.
  repeat split. destruct (filter nonempty S); reflexivity.
Qed.

Lemma boxed_load_renders_input_witness :
  exists p,
    initialize boxed_variant (Some (JSON_stringify [[]; lit "B"]))
               (lit " draft ") = Some p /\
    taskList p = trim (lit " draft ") :: filter nonempty [lit "B"] /\
    input p = [] /\
    storage p = Some (JSON_stringify [[]; lit "B"]) /\
    uncaught p = [].
Proof.
  apply (boxed_load_renders_input
           (Some (JSON_stringify [[]; lit "B"])) (lit " draft ") [lit "B"]).
  - vm_compute. reflexivity.
  - vm_compute. discriminate.
Defined.

(** ** How the two store operations compose *)

Lemma without_app (t : jsstring) (a b : list jsstring) :
  without t (a ++ b) = without t a ++ without t b.
Proof. apply filter_app. Qed.

Lemma without_comm (t u : jsstring) (S : list jsstring) :
  without u (without t S) = without t (without u S).
Proof.
  unfold without. induction S as [|x S IH]; [reflexivity|].
  simpl. destruct (str_eqb x t) eqn:Et, (str_eqb x u) eqn:Eu; simpl;
    rewrite ?Et, ?Eu; simpl; now rewrite IH.
Qed.

(** Saving a text and then removing it leaves the store without any
    occurrence of the text: the earlier ones go too, so the store is back
    to what it held only if the text was not in it. *)
Theorem add_then_remove (p : page) (t : jsstring) (S : list jsstring) :
  persisted (storage p) = Some S ->
  exists p',
    (Script.saveTaskToLocalStorage t ;; Script.removeTaskFromLocalStorage t) p
      = Returned p' /\
    storage p' = Some (JSON_stringify (without t S)) /\
    persisted (storage p') = Some (without t S) /\
    (persisted (storage p') = Some S <-> ~ In t S).
Proof.
  intros H. unfold seq. rewrite (Script_save p t S H).
  rewrite (Script_remove _ t (S ++ [t])) by apply persisted_stringify.
  eexists. split; [reflexivity|]. simpl.
  rewrite without_app. unfold without at 2. simpl. rewrite str_eqb_refl.
  simpl. rewrite app_nil_r.
  split; [reflexivity|]. rewrite persisted_stringify.
  split; [reflexivity|]. split.
  - intros E HIn. injection E as E.
    rewrite <- E in HIn. apply In_without in HIn. tauto.
  - intros Hn. now rewrite without_absent.
Qed.

Lemma add_then_remove_witness :
  exists p',
    (Script.saveTaskToLocalStorage (lit "X") ;;
     Script.removeTaskFromLocalStorage (lit "X"))
      (fresh (Some (JSON_stringify [lit "X"; lit "Y"])) [])
      = Returned p' /\
    storage p'
      = Some (JSON_stringify (without (lit "X") [lit "X"; lit "Y"])) /\
    persisted (storage p') = Some (without (lit "X") [lit "X"; lit "Y"]) /\
    (persisted (storage p') = Some [lit "X"; lit "Y"]
     <-> ~ In (lit "X") [lit "X"; lit "Y"]).
Proof.
  apply (add_then_remove
           (fresh (Some (JSON_stringify [lit "X"; lit "Y"])) [])
           (lit "X") [lit "X"; lit "Y"]).
  vm_compute. reflexivity.
Defined.

(** Two removals from the store may be done in either order, and so may a
    removal and the saving of another text. *)
Theorem store_operations_commute (p : page) (t u : jsstring)
  (S : list jsstring) :
  persisted (storage p) = Some S ->
  (Script.removeTaskFromLocalStorage t ;; Script.removeTaskFromLocalStorage u) p
  = (Script.removeTaskFromLocalStorage u ;; Script.removeTaskFromLocalStorage t) p
  /\
  (u <> t ->
   (Script.saveTaskToLocalStorage u ;; Script.removeTaskFromLocalStorage t) p
   = (Script.removeTaskFromLocalStorage t ;; Script.saveTaskToLocalStorage u) p).
Proof.
  intros H. unfold seq.
  rewrite (Script_remove p t S H), (Script_remove p u S H),
    (Script_save p u S H).
  rewrite (Script_remove _ u (without t S)) by apply persisted_stringify.
  rewrite (Script_remove _ t (without u S)) by apply persisted_stringify.
  rewrite (Script_remove _ t (S ++ [u])) by apply persisted_stringify.
  rewrite (Script_save _ u (without t S)) by apply persisted_stringify.
  simpl. split.
  - now rewrite without_comm.
  - intros Hne. apply str_eqb_neq in Hne.
    rewrite without_app. unfold without at 2. simpl. now rewrite Hne.
Qed.

Lemma store_operations_commute_witness :
  (Script.removeTaskFromLocalStorage (lit "A") ;;
   Script.removeTaskFromLocalStorage (lit "B"))
    (fresh (Some (JSON_stringify [lit "A"; lit "B"; lit "C"])) [])
  = (Script.removeTaskFromLocalStorage (lit "B") ;;
     Script.removeTaskFromLocalStorage (lit "A"))
      (fresh (Some (JSON_stringify [lit "A"; lit "B"; lit "C"])) [])
  /\
  (lit "B" <> lit "A" ->
   (Script.saveTaskToLocalStorage (lit "B") ;;
    Script.removeTaskFromLocalStorage (lit "A"))
     (fresh (Some (JSON_stringify [lit "A"; lit "B"; lit "C"])) [])
   = (Script.removeTaskFromLocalStorage (lit "A") ;;
      Script.saveTaskToLocalStorage (lit "B"))
       (fresh (Some (JSON_stringify [lit "A"; lit "B"; lit "C"])) [])).
Proof.
  apply (store_operations_commute
           (fresh (Some (JSON_stringify [lit "A"; lit "B"; lit "C"])) [])
           (lit "A") (lit "B") [lit "A"; lit "B"; lit "C"]).
  vm_compute. reflexivity.
Defined.

(** ** The three variants compared, for every content of the input field *)







